(** * WallexBot: the trade ingestion pipeline, the sizing engine, the decision
    client and the push transport, embedded from the Python sources

    - [src/main.py]                  : [handle_trade], [on_msg], [polling_loop]
    - [src/engine/trading_engine.py] : [_format_quantity], [decide_order]
    - [src/llm/gemini_client.py]     : [GeminiClient.analyze]
    - [src/wallex/ws_client.py]      : the [connect] handler and [subscribe]

    Python floats are IEEE binary64 numbers: they are the kernel's primitive
    floats here, so that [10.0 / 50000.0] is computed, not approximated. *)

From Stdlib Require Import ZArith List Bool String Ascii Lia.
From Stdlib Require Import Sorting.Permutation Sorting.Sorted.
From Stdlib Require Import PrimFloat SpecFloat FloatOps FloatAxioms.
From stdpp Require Import base gmap strings.
Import ListNotations.

Local Open Scope string_scope.
Local Open Scope Z_scope.

(** ** Python values

    What [json] hands to the program: the payload of a socket message, a
    polled response, the body answered by the remote decision service. A
    [dict] keeps its insertion order ([resp.values()] is iterated in that
    order by the poll loop), hence an association list. *)

#[warnings="-register-all"]
Inductive pyval : Type :=
| PNone
| PBool (b : bool)
| PInt (z : Z)
| PFloat (f : float)
| PStr (s : string)
| PList (l : list pyval)
| PDict (d : list (string * pyval)).

(** A Python call either returns or raises. The class of the exception is
    kept, because [analyze] catches one class only. *)
Inductive exn : Type :=
| ValueError
| TypeError
| OverflowError
| OSError
| AttributeError
| KeyError
| BadNamespaceError
| RequestException (msg : string).

Inductive result (A : Type) : Type :=
| Ret (a : A)
| Raise (e : exn).
Arguments Ret {A} a.
Arguments Raise {A} e.

Definition bind {A B} (r : result A) (k : A -> result B) : result B :=
  match r with
  | Ret a => k a
  | Raise e => Raise e
  end.

#[global] Instance result_ret : MRet result := @Ret.
#[global] Instance result_bind : MBind result := fun A B k r => bind r k.

(** [try: r  except Exception: d] *)
Definition except_Exception {A} (r : result A) (d : A) : A :=
  match r with
  | Ret a => a
  | Raise _ => d
  end.

(** [bool(v)] *)
Definition truthy (v : pyval) : bool :=
  match v with
  | PNone => false
  | PBool b => b
  | PInt z => negb (z =? 0)
  | PFloat f => negb (PrimFloat.eqb f 0%float)
  | PStr s => negb (String.eqb s "")
  | PList l => match l with [] => false | _ => true end
  | PDict d => match d with [] => false | _ => true end
  end.

(** [a or b] *)
Definition py_or (a b : pyval) : pyval := if truthy a then a else b.

Fixpoint assoc (k : string) (d : list (string * pyval)) : option pyval :=
  match d with
  | [] => None
  | (k', v) :: d' => if String.eqb k k' then Some v else assoc k d'
  end.

(** [d.get(k)] on a dict; on another value the attribute is missing. *)
Definition dict_get (k : string) (d : list (string * pyval)) : pyval :=
  match assoc k d with
  | Some v => v
  | None => PNone
  end.

Definition py_get (v : pyval) (k : string) : result pyval :=
  match v with
  | PDict d => Ret (dict_get k d)
  | _ => Raise AttributeError
  end.

(** [d.get(k, default)] *)
Definition py_get_default (v : pyval) (k : string) (dflt : pyval) : result pyval :=
  match v with
  | PDict d => Ret (match assoc k d with Some x => x | None => dflt end)
  | _ => Raise AttributeError
  end.

(** ** Floats *)

Definition pow2 (e : Z) : Z := 2 ^ e.

(** The integer part of a float, towards zero: [int(f)]. *)
Definition float_trunc (f : float) : result Z :=
  match Prim2SF f with
  | S754_zero _ => Ret 0
  | S754_nan => Raise ValueError
  | S754_infinity _ => Raise OverflowError
  | S754_finite s m e =>
      let a := if 0 <=? e then Zpos m * pow2 e else Zpos m / pow2 (- e) in
      Ret (if s then - a else a)
  end.

(** [float(z)] for an [int]: the nearest double, ties to even; an [int]
    beyond the doubles raises. *)
Definition float_of_Z (z : Z) : result float :=
  match binary_normalize prec emax z 0 false with
  | S754_infinity _ => Raise OverflowError
  | sf => Ret (SF2Prim sf)
  end.

(** The double nearest to the fraction [n / d], ties to even: what [float]
    returns on the decimal numeral of [n / d]. *)
Definition SF_of_ratio (s : bool) (n d : positive) : spec_float :=
  let '(mz, ez, lz) := SFdiv_core_binary prec emax (Zpos n) 0 (Zpos d) 0 in
  binary_round_aux prec emax s mz ez lz.

(** Division of [n] by [d > 0] rounded to the nearest integer, ties to even. *)
Definition div_half_even (n d : Z) : Z :=
  let q := n / d in
  let r := n mod d in
  match 2 * r ?= d with
  | Lt => q
  | Gt => q + 1
  | Eq => if Z.even q then q else q + 1
  end.

(** The numeral printed by [f"{q:.6f}"] for the finite double [m * 2^e], as
    the integer number of millionths: the exact binary value is rounded,
    ties to even. *)
Definition millionths (m : positive) (e : Z) : Z :=
  if 0 <=? e then Zpos m * 1000000 * pow2 e
  else div_half_even (Zpos m * 1000000) (pow2 (- e)).

(** [float(f"{q:.6f}")]: six decimals are printed and the numeral is read
    back. ["nan"] and ["inf"] are read back as themselves, and a numeral of
    zeros keeps its sign. *)
Definition float_6f (q : float) : float :=
  match Prim2SF q with
  | S754_finite s m e =>
      match millionths m e with
      | Zpos n => SF2Prim (SF_of_ratio s n 1000000)
      | _ => SF2Prim (S754_zero s)
      end
  | sf => SF2Prim sf
  end.

(** [max(a, b)] of the builtins: [b] when [b > a], else [a]. *)
Definition py_max (a b : float) : float :=
  if PrimFloat.ltb a b then b else a.


(** ** Strings *)

(** [s.endswith(suffix)] *)
Definition endswith (s suffix : string) : bool :=
  let n := String.length s in
  let m := String.length suffix in
  (m <=? n)%nat && String.eqb (substring (n - m) m s) suffix.

(** [sub in s] for two [str]. *)
Definition str_contains (sub s : string) : bool :=
  match index 0 sub s with
  | Some _ => true
  | None => false
  end.

(** The position of the last occurrence of the character [c], if any. *)
Fixpoint rindex_char (c : ascii) (s : string) : option nat :=
  match s with
  | EmptyString => None
  | String a s' =>
      match rindex_char c s' with
      | Some i => Some (S i)
      | None => if Ascii.eqb a c then Some O else None
      end
  end.

Definition chars (s : string) : list string :=
  map (fun a => String a EmptyString) (list_ascii_of_string s).

(** [re.search(r"\{[\s\S]*\}", text)]: the star is greedy and the class
    takes every character, so the match runs from the first opening brace
    to the last closing brace behind it. *)
Definition search_braces (text : string) : option string :=
  match index 0 "{" text, rindex_char "}"%char text with
  | Some i, Some j =>
      if (i <? j)%nat then Some (substring i (j - i + 1) text) else None
  | _, _ => None
  end.

(** ** Sequences *)

(** [l[-n:]] for a positive [n]: the last [n] items, all of them when there
    are fewer. *)
Definition py_suffix {A} (n : nat) (l : list A) : list A :=
  skipn (length l - n) l.

(** [for x in v]: the items a [for] loop goes through. *)
Definition py_iter (v : pyval) : result (list pyval) :=
  match v with
  | PList l => Ret l
  | PDict d => Ret (map (fun kv => PStr (fst kv)) d)
  | PStr s => Ret (map PStr (chars s))
  | _ => Raise TypeError
  end.

(** [v == s] for a [str] literal [s]. *)
Definition py_eq_str (v : pyval) (s : string) : bool :=
  match v with
  | PStr t => String.eqb t s
  | _ => false
  end.

(** [k in v] for a [str] literal [k]. *)
Definition py_contains (k : string) (v : pyval) : result bool :=
  match v with
  | PDict d => Ret (match assoc k d with Some _ => true | None => false end)
  | PList l => Ret (existsb (fun x => py_eq_str x k) l)
  | PStr s => Ret (str_contains k s)
  | _ => Raise TypeError
  end.

(** [v[k]] for a [str] literal [k]. *)
Definition py_getitem (v : pyval) (k : string) : result pyval :=
  match v with
  | PDict d => match assoc k d with Some x => Ret x | None => Raise KeyError end
  | _ => Raise TypeError
  end.

(** [v + "\n"]: only a [str] can be added to a [str]. *)
Definition py_add_newline (v : pyval) : result string :=
  match v with
  | PStr s => Ret (s ++ String (ascii_of_nat 10) EmptyString)%string
  | _ => Raise TypeError
  end.

(** ** [src/models/types.py] *)

(** A dataclass checks no type: each field holds whatever it was given. *)
Record LLMDecision : Type := mkLLMDecision {
  action : pyval;
  confidence : pyval;
  reason : pyval;
  stop_loss : pyval;
  take_profit : pyval
}.

Record OrderRequest : Type := mkOrderRequest {
  or_symbol : string;
  side : string;
  type : string;
  quantity : float;
  or_price : option float
}.

(** ** [src/config.py]: the settings the pipeline reads *)

Record Settings : Type := mkSettings {
  wallex_api_key : string;
  symbol : string;
  use_llm : bool;
  gemini_api_key : string;
  trade_amount_quote : float;
  dry_run : bool
}.

(** ** [src/engine/trading_engine.py] *)

Record TradingEngine : Type := mkTradingEngine {
  te_symbol : string;
  quote_amount : float
}.

Set Warnings "-inexact-float".

Definition _format_quantity (qty : float) : float :=
  let q := py_max qty 0%float in
  let q := float_6f q in
  if (q <? 0.000001)%float then 0%float else q.

Definition decide_order (self : TradingEngine) (price : float)
    (decision : LLMDecision) : option OrderRequest :=
  if py_eq_str (action decision) "flat" then None
  else if (price <=? 0)%float then None
  else
    let side := if py_eq_str (action decision) "long" then "BUY" else "SELL" in
    let raw_qty := (quote_amount self / price)%float in
    let qty := _format_quantity raw_qty in
    if (qty <=? 0)%float then None
    else Some (mkOrderRequest (te_symbol self) side "MARKET" qty None).

(** ** [src/llm/gemini_client.py] *)

Record LLMInput : Type := mkLLMInput {
  li_symbol : string;
  timeframe : string;
  li_recent_trades : list pyval
}.

(** What [requests.post], [raise_for_status] and [resp.json()] come to: an
    exception of the [requests] family (no connection, a timeout, an error
    status, a body that is not JSON), or the decoded body. *)
Inductive http_reply : Type :=
| HttpError (msg : string)
| HttpJson (data : pyval).

Definition fallback (why : string) : LLMDecision :=
  mkLLMDecision (PStr "flat") (PFloat 0%float) (PStr why) PNone PNone.

Definition decision_fields : list string :=
  ["action"; "confidence"; "reason"; "stop_loss"; "take_profit"].

(** [LLMDecision] called with [obj] unpacked as keywords: [obj] must be a
    mapping, every key a field, the three fields without a default
    present. *)
Definition LLMDecision_kwargs (obj : pyval) : result LLMDecision :=
  match obj with
  | PDict d =>
      if forallb (fun kv => existsb (String.eqb (fst kv)) decision_fields) d then
        match assoc "action" d, assoc "confidence" d, assoc "reason" d with
        | Some a, Some c, Some r =>
            Ret (mkLLMDecision a c r (dict_get "stop_loss" d) (dict_get "take_profit" d))
        | _, _, _ => Raise TypeError
        end
      else Raise TypeError
  | _ => Raise TypeError
  end.

(** The inner loop: [for p in parts: if "text" in p: text += p["text"] + "\n"] *)
Fixpoint parts_text (ps : list pyval) (text : string) : result string :=
  match ps with
  | [] => Ret text
  | p :: ps' =>
      has ← py_contains "text" p;
      if has : bool then
        v ← py_getitem p "text";
        s ← py_add_newline v;
        parts_text ps' (text ++ s)%string
      else parts_text ps' text
  end.

(** The outer loop: [for cand in data.get("candidates", [])] *)
Fixpoint candidates_text (cands : list pyval) (text : string) : result string :=
  match cands with
  | [] => Ret text
  | cand :: cs =>
      content ← py_get_default cand "content" (PDict []);
      parts ← py_get_default content "parts" (PList []);
      ps ← py_iter parts;
      text' ← parts_text ps text;
      candidates_text cs text'
  end.

Section Analyze.
(** [json.loads]; [None] when it raises. *)
Variable json_loads : string -> option pyval.
(** The remote service, as the reply to each request. *)
Variable requests_post : LLMInput -> http_reply.

(** The body of the [try] block. *)
Definition analyze_try (llm_input : LLMInput) : result LLMDecision :=
  match requests_post llm_input with
  | HttpError msg => Raise (RequestException msg)
  | HttpJson data =>
      cands_v ← py_get_default data "candidates" (PList []);
      cands ← py_iter cands_v;
      text ← candidates_text cands "";
      if String.eqb text "" then Ret (fallback "No text in LLM response")
      else
        match search_braces text with
        | Some m =>
            let parsed :=
              match json_loads m with
              | Some obj => LLMDecision_kwargs obj
              | None => Raise ValueError
              end in
            match parsed with
            | Ret d => Ret d
            | Raise _ => Ret (fallback "Could not parse LLM output")
            end
        | None => Ret (fallback "Could not parse LLM output")
        end
  end.

(** [except requests.RequestException as e]: the one class caught. *)
Definition analyze (llm_input : LLMInput) : result LLMDecision :=
  match analyze_try llm_input with
  | Raise (RequestException msg) => Ret (fallback ("LLM error: " ++ msg))
  | r => r
  end.
End Analyze.

(** ** [src/main.py] *)

(** [sorted(l, key=key)]: the builtin sort is stable; insertion keeps an
    item in front of the later items of the same key. *)
Section Sorted.
Context {A : Type} (key : A -> Z).

Fixpoint insert_by (x : A) (l : list A) : list A :=
  match l with
  | [] => [x]
  | y :: l' => if key x <=? key y then x :: l else y :: insert_by x l'
  end.

Fixpoint sorted (l : list A) : list A :=
  match l with
  | [] => []
  | x :: l' => insert_by x (sorted l')
  end.

(** The order of the keys. *)
Definition key_le (a b : A) : Prop := key a <= key b.
End Sorted.

(** What the world answers while one call of [handle_trade] runs: the wall
    clock, the remote decision service, the exchange's order endpoint. *)
Record env : Type := mkEnv {
  time_time : float;
  requests_post : LLMInput -> http_reply;
  place_order : OrderRequest -> result pyval
}.

(** The three variables [handle_trade] shares with the poll loop. *)
Record pipeline : Type := mkPipeline {
  recent_trades : list pyval;
  last_trade_ts : Z;
  last_activity : float
}.

(** What became of an order request. *)
Inductive gate : Type :=
| NoOrder
| DryRunSkipped (o : OrderRequest)
| NoKeySkipped (o : OrderRequest)
| Submitted (o : OrderRequest) (resp : result pyval).

(** One invocation of the decision function: its input, and either what
    followed or the exception that [analyze] let through. *)
Record trigger : Type := mkTrigger {
  t_input : LLMInput;
  t_outcome : result (LLMDecision * gate)
}.

(** What one call of [handle_trade] did. *)
Inductive report : Type :=
| Ignored
| Rejected
| Accepted (price : float) (fired : option trigger).

Definition accepted (r : report) : bool :=
  match r with Accepted _ _ => true | _ => false end.

Definition fired (r : report) : bool :=
  match r with Accepted _ (Some _) => true | _ => false end.

(** One call of [handle_trade]: the world it met, its argument, what it did. *)
Record call : Type := mkCall {
  c_env : env;
  c_data : pyval;
  c_report : report
}.

(** The exception that leaves [handle_trade], if one does. *)
Definition escapes (r : report) : option exn :=
  match r with
  | Accepted _ (Some (mkTrigger _ (Raise e))) => Some e
  | _ => None
  end.

(** What [run] finds around it: the parsers of the interpreter and the
settings it loaded. *)
Record Host : Type := mkHost {
  (** [int(s)] and [float(s)] of the builtins on a [str]; [None] when they
      raise [ValueError]. *)
  int_of_str : string -> option Z;
  float_of_str : string -> option float;
  (** [json.loads]; [None] when it raises. *)
  json_loads : string -> option pyval;
  settings : Settings
}.

Section Pipeline.
Variable host : Host.

(** [int(v)] *)
Definition py_int (v : pyval) : result Z :=
  match v with
  | PInt z => Ret z
  | PBool b => Ret (if b then 1 else 0)
  | PFloat f => float_trunc f
  | PStr s => match int_of_str host s with Some z => Ret z | None => Raise ValueError end
  | _ => Raise TypeError
  end.

(** [float(v)] *)
Definition py_float (v : pyval) : result float :=
  match v with
  | PInt z => float_of_Z z
  | PBool b => Ret (if b then 1%float else 0%float)
  | PFloat f => Ret f
  | PStr s => match float_of_str host s with Some f => Ret f | None => Raise ValueError end
  | _ => Raise TypeError
  end.

(** [int(d.get("ts") or d.get("T") or d.get("t") or 0)], and [0] on any
    exception: the body of [_extract_ts], and the same lines at the head
    of [handle_trade]. *)
Definition _extract_ts (d : pyval) : Z :=
  except_Exception
    (a ← py_get d "ts";
     b ← py_get d "T";
     c ← py_get d "t";
     py_int (py_or (py_or (py_or a b) c) (PInt 0)))
    0.

(** [price_val = data.get("price") or data.get("p")] *)
Definition price_val (d : list (string * pyval)) : pyval :=
  py_or (dict_get "price" d) (dict_get "p" d).

(** [float(price_val) if price_val is not None else 0.0], and [0.0] on any
    exception. *)
Definition extract_price (d : list (string * pyval)) : float :=
  except_Exception
    (match price_val d with
     | PNone => Ret 0%float
     | v => py_float v
     end)
    0%float.

(** [llm] is a client when the settings ask for one and give a key, else
    [None]; this is [bool(llm)]. *)
Definition llm : bool :=
  use_llm (settings host) && negb (String.eqb (gemini_api_key (settings host)) "").

Definition engine : TradingEngine :=
  mkTradingEngine (symbol (settings host)) (trade_amount_quote (settings host)).

(** The lines under [if order_req:]. *)
Definition execution_gate (e : env) (order_req : option OrderRequest) : gate :=
  match order_req with
  | None => NoOrder
  | Some o =>
      if dry_run (settings host) then DryRunSkipped o
      else if String.eqb (wallex_api_key (settings host)) "" then NoKeySkipped o
      else Submitted o (place_order e o)
  end.

(** The lines under [if llm and len(recent_trades) % 6 == 0 and price > 0:]. *)
Definition invoke_decision (e : env) (price : float) (window : list pyval) : trigger :=
  let llm_input := mkLLMInput (symbol (settings host)) "live" (py_suffix 20 window) in
  mkTrigger llm_input
    (decision ← analyze (json_loads host) (requests_post e) llm_input;
     Ret (decision, execution_gate e (decide_order engine price decision))).

Definition handle_trade (e : env) (data : pyval) (st : pipeline)
    : pipeline * report :=
  match data with
  | PDict d =>
      let ts := _extract_ts data in
      let price := extract_price d in
      if negb (ts =? 0) && (ts <=? last_trade_ts st) then (st, Rejected)
      else
        let watermark := if negb (ts =? 0) then ts else last_trade_ts st in
        let appended := (recent_trades st ++ [data])%list in
        let window :=
          if (200 <? length appended)%nat then py_suffix 200 appended
          else appended in
        let st' := mkPipeline window watermark (time_time e) in
        if llm && (length window mod 6 =? 0)%nat && (0 <? price)%float
        then (st', Accepted price (Some (invoke_decision e price window)))
        else (st', Accepted price None)
  | _ => (st, Ignored)
  end.

(** [on_msg]: the callback of the push transport. *)
Definition on_msg (e : env) (channel : string) (data : pyval) (st : pipeline)
    : pipeline * list call :=
  if endswith channel "@trade" then
    let '(st', r) := handle_trade e data st in (st', [mkCall e data r])
  else (st, []).

(** The candidate list of a polled response. *)
Fixpoint first_list_key (keys : list string) (d : list (string * pyval))
    : list pyval :=
  match keys with
  | [] => []
  | k :: keys' =>
      match assoc k d with
      | Some (PList l) => l
      | _ => first_list_key keys' d
      end
  end.

Fixpoint first_list_value (d : list (string * pyval)) : list pyval :=
  match d with
  | [] => []
  | (_, PList l) :: _ => l
  | _ :: d' => first_list_value d'
  end.

Definition candidates_of (resp : pyval) : list pyval :=
  match resp with
  | PDict d =>
      match first_list_key ["trades"; "data"; "result"; "items"] d with
      | [] => first_list_value d
      | c => c
      end
  | PList l => l
  | _ => []
  end.

(** [for tr in candidates_sorted: ...]: a stale record is skipped before
    the call; an exception out of [handle_trade] leaves the loop. The
    [i]-th record of the sorted batch meets the world [envs i]. *)
Fixpoint feed_sorted (envs : nat -> env) (i : nat) (trs : list pyval)
    (st : pipeline) : pipeline * list call :=
  match trs with
  | [] => (st, [])
  | tr :: rest =>
      let ts := _extract_ts tr in
      if negb (ts =? 0) && (ts <=? last_trade_ts st)
      then feed_sorted envs (S i) rest st
      else
        let '(st1, r) := handle_trade (envs i) tr st in
        match escapes r with
        | Some _ => (st1, [mkCall (envs i) tr r])
        | None =>
            let '(st2, log) := feed_sorted envs (S i) rest st1 in
            (st2, mkCall (envs i) tr r :: log)
        end
  end.

(** One pass of [polling_loop] over the response of [get_trades]. *)
Definition poll_pass (envs : nat -> env) (resp : pyval) (st : pipeline)
    : pipeline * list call :=
  feed_sorted envs 0 (sorted _extract_ts (candidates_of resp)) st.

(** [new_count]: the calls of [handle_trade] that returned. *)
Definition new_count (log : list call) : nat :=
  length (List.filter
            (fun c => match escapes (c_report c) with None => true | Some _ => false end)
            log).

(** A run of the pipeline: what the two transports deliver, in the order
    in which [handle_trade] takes it. *)
Inductive feed : Type :=
| Push (e : env) (channel : string) (data : pyval)
| Poll (envs : nat -> env) (resp : pyval).

Definition step (f : feed) (st : pipeline) : pipeline * list call :=
  match f with
  | Push e channel data => on_msg e channel data st
  | Poll envs resp => poll_pass envs resp st
  end.

Fixpoint run (fs : list feed) (st : pipeline) : pipeline * list call :=
  match fs with
  | [] => (st, [])
  | f :: fs' =>
      let '(st1, log1) := step f st in
      let '(st2, log2) := run fs' st1 in
      (st2, (log1 ++ log2)%list)
  end.

(** The state [run] starts from: [recent_trades = []], [last_trade_ts = 0],
    [last_activity = time.time()]. *)
Definition start (t0 : float) : pipeline := mkPipeline [] 0 t0.

(** The events taken into the window, in the order of their acceptance. *)
Definition accepted_events (log : list call) : list pyval :=
  map c_data (List.filter (fun c => accepted (c_report c)) log).

(** The calls of a log made again, one after the other. *)
Definition replay (log : list call) (st : pipeline) : pipeline :=
  fold_left (fun s c => fst (handle_trade (c_env c) (c_data c) s)) log st.

(** *** Two tasks, one state

    [on_msg] runs in the task of the push transport, [polling_loop] in a
    thread of its own, and both call [handle_trade] on the same three
    variables. A thread can be suspended between two statements, so one
    call is a sequence of steps, each a statement that reads or writes a
    shared variable. No statement of [handle_trade] takes a lock. *)
Inductive pc : Type :=
| AtGuard        (* if ts and ts <= last_trade_ts: return *)
| AtWatermark    (* if ts: last_trade_ts = ts *)
| AtClock        (* last_activity = time.time() *)
| AtAppend       (* recent_trades.append(data) *)
| AtTrim         (* if len(recent_trades) > 200: recent_trades = recent_trades[-200:] *)
| AtTrigger      (* if llm and len(recent_trades) % 6 == 0 and price > 0: ... *)
| Returned (r : report).

Record task : Type := mkTask {
  t_env : env;
  t_data : pyval;
  t_pc : pc
}.

Definition at_pc (t : task) (p : pc) : task := mkTask (t_env t) (t_data t) p.

(** A call that has not started yet. *)
Definition spawn (e : env) (data : pyval) : task := mkTask e data AtGuard.

Definition task_step (t : task) (st : pipeline) : task * pipeline :=
  match t_data t with
  | PDict d =>
      let ts := _extract_ts (t_data t) in
      let price := extract_price d in
      match t_pc t with
      | AtGuard =>
          if negb (ts =? 0) && (ts <=? last_trade_ts st)
          then (at_pc t (Returned Rejected), st)
          else (at_pc t AtWatermark, st)
      | AtWatermark =>
          (at_pc t AtClock,
           if negb (ts =? 0)
           then mkPipeline (recent_trades st) ts (last_activity st)
           else st)
      | AtClock =>
          (at_pc t AtAppend,
           mkPipeline (recent_trades st) (last_trade_ts st) (time_time (t_env t)))
      | AtAppend =>
          (at_pc t AtTrim,
           mkPipeline (recent_trades st ++ [t_data t])%list (last_trade_ts st)
             (last_activity st))
      | AtTrim =>
          (at_pc t AtTrigger,
           if (200 <? length (recent_trades st))%nat
           then mkPipeline (py_suffix 200 (recent_trades st)) (last_trade_ts st)
                  (last_activity st)
           else st)
      | AtTrigger =>
          let window := recent_trades st in
          (at_pc t (Returned (Accepted price
             (if llm && (length window mod 6 =? 0)%nat && (0 <? price)%float
              then Some (invoke_decision (t_env t) price window) else None))), st)
      | Returned _ => (t, st)
      end
  | _ => (at_pc t (Returned Ignored), st)
  end.

(** A schedule names, step by step, the task that runs: [false] the push
    callback, [true] the poll loop. *)
Fixpoint interleave (sched : list bool) (push poll : task) (st : pipeline)
    : task * task * pipeline :=
  match sched with
  | [] => (push, poll, st)
  | false :: sched' =>
      let '(push', st') := task_step push st in interleave sched' push' poll st'
  | true :: sched' =>
      let '(poll', st') := task_step poll st in interleave sched' push poll' st'
  end.

Definition returned (t : task) : option report :=
  match t_pc t with Returned r => Some r | _ => None end.

(** [n] statements of one call, nothing else running in between; a call
    has returned after six. *)
Fixpoint run_steps (n : nat) (t : task) (st : pipeline) : task * pipeline :=
  match n with
  | O => (t, st)
  | S n' => let '(t', st') := task_step t st in run_steps n' t' st'
  end.

Definition run_alone (t : task) (st : pipeline) : task * pipeline :=
  run_steps 6 t st.

(** The calls of the two tasks are serialized when, whatever the schedule,
    once both have returned the state is the one that [handle_trade] leaves
    when it takes the two events one after the other, in one order or the
    other. *)
Definition serialized (e1 : env) (d1 : pyval) (e2 : env) (d2 : pyval)
    (st : pipeline) : Prop :=
  forall sched : list bool,
    let '(push, poll, st') := interleave sched (spawn e1 d1) (spawn e2 d2) st in
    returned push <> None -> returned poll <> None ->
    st' = fst (handle_trade e2 d2 (fst (handle_trade e1 d1 st))) \/
    st' = fst (handle_trade e1 d1 (fst (handle_trade e2 d2 st))).


(** Two readings of which records a pass accepts: only those whose
    timestamp is above the watermark they meet; or those, and the records
    without a timestamp. *)
Definition accepts_only_newer (envs : nat -> env) (resp : pyval)
    (st : pipeline) : Prop :=
  forall l1 c l2,
    snd (poll_pass envs resp st) = (l1 ++ c :: l2)%list ->
    accepted (c_report c) = true ->
    last_trade_ts (replay l1 st) < _extract_ts (c_data c).

Definition accepts_newer_or_unstamped (envs : nat -> env) (resp : pyval)
    (st : pipeline) : Prop :=
  forall l1 c l2,
    snd (poll_pass envs resp st) = (l1 ++ c :: l2)%list ->
    accepted (c_report c) = true ->
    _extract_ts (c_data c) = 0 \/
    last_trade_ts (replay l1 st) < _extract_ts (c_data c).
End Pipeline.

(** ** [src/wallex/ws_client.py] *)

(** The client: the channels asked for so far, whether the socket is
    connected, and the requests that went out on it, oldest first. *)
Record WallexWSClient : Type := mkClient {
  _subscriptions : gset string;
  connected : bool;
  emitted : list (string * pyval)
}.

Definition subscribe_request (ch : string) : string * pyval :=
  ("subscribe", PDict [("channel", PStr ch)]).

(** [self.sio.emit(event, data)]: raises outside a connection. *)
Definition sio_emit (event : string) (data : pyval) (c : WallexWSClient)
    : WallexWSClient * result unit :=
  if connected c
  then (mkClient (_subscriptions c) true (emitted c ++ [(event, data)])%list, Ret tt)
  else (c, Raise BadNamespaceError).

(** [try: self.sio.emit("subscribe", {"channel": ch}) except Exception: ...] *)
Definition try_subscribe (c : WallexWSClient) (ch : string) : WallexWSClient :=
  fst (sio_emit "subscribe" (snd (subscribe_request ch)) c).

(** The [connect] handler: [for ch in list(self._subscriptions): ...] *)
Definition connect_handler (c : WallexWSClient) : WallexWSClient :=
  fold_left try_subscribe (elements (_subscriptions c)) c.

(** The transition into Connected: the socket is up, then its handler runs. *)
Definition on_connected (c : WallexWSClient) : WallexWSClient :=
  connect_handler (mkClient (_subscriptions c) true (emitted c)).

(** The transition out of it: the handler only logs. *)
Definition on_disconnected (c : WallexWSClient) : WallexWSClient :=
  mkClient (_subscriptions c) false (emitted c).

(** [connect]: [up] tells whether [self.sio.connect] gets through; its
    exception is caught. *)
Definition ws_connect (up : bool) (c : WallexWSClient) : WallexWSClient :=
  if up && negb (connected c) then on_connected c else c.

(** [disconnect] *)
Definition ws_disconnect (c : WallexWSClient) : WallexWSClient :=
  if connected c then on_disconnected c else c.

(** [subscribe] *)
Definition subscribe (up : bool) (channel : string) (c : WallexWSClient)
    : WallexWSClient :=
  let c1 := mkClient ({[channel]} ∪ _subscriptions c) (connected c) (emitted c) in
  let c2 := if connected c1 then c1 else ws_connect up c1 in
  try_subscribe c2 channel.

(** What happens to a client during the life of the process. *)
Inductive ws_event : Type :=
| Subscribe (up : bool) (channel : string)
| Connect (up : bool)
| Disconnect
| ConnectionLost
| Reconnected.

Definition ws_step (c : WallexWSClient) (ev : ws_event) : WallexWSClient :=
  match ev with
  | Subscribe up channel => subscribe up channel c
  | Connect up => ws_connect up c
  | Disconnect => ws_disconnect c
  | ConnectionLost => on_disconnected c
  | Reconnected => on_connected c
  end.

Definition ws_run (evs : list ws_event) (c : WallexWSClient) : WallexWSClient :=
  fold_left ws_step evs c.

(** [WallexWSClient(base_url)] *)
Definition ws_init : WallexWSClient := mkClient ∅ false [].

(** The channels of the requests of a log, in order. *)
Definition requested (log : list (string * pyval)) : list string :=
  flat_map (fun r =>
    match r with
    | (ev, PDict [(k, PStr ch)]) =>
        if String.eqb ev "subscribe" && String.eqb k "channel" then [ch] else []
    | _ => []
    end) log.

(** ** Sample inputs *)

(** The parsers of the samples below, whose records hold numbers and no
numeral in a string: they are never asked. *)
Definition unparsed {A : Type} : string -> option A := fun _ => None.

(** The defaults of the [Settings] dataclass: no key for the decision
service, so no client. *)
Definition default_settings : Settings :=
  mkSettings "" "BTCUSDT" true "" 10%float true.

(** The same with a key: the decision client exists. *)
Definition live_settings : Settings :=
  mkSettings "" "BTCUSDT" true "key" 10%float true.

Definition default_host : Host := mkHost unparsed unparsed unparsed default_settings.

Definition live_host : Host := mkHost unparsed unparsed unparsed live_settings.

(** A world in which the clock stands still and no service answers. *)
Definition offline : env :=
  mkEnv 0%float
    (fun _ => HttpError "offline")
    (fun _ => Raise (RequestException "offline")).

(** A trade record with a timestamp and a price, as JSON numbers. *)
Definition trade (ts : Z) (price : float) : pyval :=
  PDict [("t", PInt ts); ("p", PFloat price)].

(** A trade record without a timestamp. *)
Definition unstamped (price : float) : pyval := PDict [("p", PFloat price)].

(** Trades [1 .. n] at the price 50000, each delivered by the push
transport. *)
Definition pushes (n : nat) : list feed :=
  map (fun i => Push offline "BTCUSDT@trade" (trade (Z.of_nat i) 50000%float))
    (seq 1 n).

(** The positions, counted from 1, of the calls that invoked the decision
function. *)
Definition fired_at (log : list call) : list nat :=
  map fst (List.filter (fun ic => fired (c_report (snd ic)))
             (combine (seq 1 (length log)) log)).

(** A body of the decision service that is JSON but not of the expected
shape: the text of a part is [null]. *)
Definition null_text_body : pyval :=
  PDict [("candidates",
          PList [PDict [("content",
                         PDict [("parts", PList [PDict [("text", PNone)]])])]])].

(** ** [src/wallex/ws_client.py]: the handler registered by [on_message] *)

(** The first lines of [_on_message]: the arguments of the socket event
    made a channel and a payload. *)
Definition normalize_message (args : list pyval) : pyval * pyval :=
  let '(channel, data) :=
    match args with
    | [a; b] => (a, b)
    | [PDict payload] =>
        (py_or (py_or (dict_get "channel" payload) (dict_get "topic" payload))
           (PStr ""),
         match assoc "data" payload with
         | Some v => v
         | None => PDict payload
         end)
    | [payload] => (PStr "", payload)
    | _ => (PStr "", PNone)
    end in
  (channel, match data with PNone => PDict [] | _ => data end).

(** What one socket event did: the calls of [handle_trade] it led to, and
    the exception that [_on_message] caught and logged, if any. *)
Record delivery : Type := mkDelivery {
  d_calls : list call;
  d_caught : option exn
}.

Section Delivery.
Variable host : Host.

(** [on_msg] of [src/main.py] on whatever channel the handler hands it:
    [channel.endswith] exists on a [str] only. *)
Definition on_msg_any (e : env) (channel data : pyval) (st : pipeline)
    : pipeline * delivery :=
  match channel with
  | PStr s =>
      let '(st', log) := on_msg host e s data st in
      (st', mkDelivery log
              (match log with
               | [c] => escapes (c_report c)
               | _ => None
               end))
  | _ => (st, mkDelivery [] (Some AttributeError))
  end.

(** [_on_message] with [on_msg] as the callback: the whole way of a socket
    event to the shared state. Every exception ends in the handler. *)
Definition _on_message (e : env) (args : list pyval) (st : pipeline)
    : pipeline * delivery :=
  let '(channel, data) := normalize_message args in
  on_msg_any e channel data st.
End Delivery.

(** ** [src/main.py]: one turn of the loop of [polling_loop] *)

(** The settings that only the poll loop reads. *)
Record PollSettings : Type := mkPollSettings {
  enable_polling : bool;
  polling_interval_sec : Z;
  ws_idle_timeout_sec : Z
}.

(** [x > n] for a [float] and an [int]: the two are compared as numbers,
    without rounding [n] to a float. *)
Definition float_gt_Z (x : float) (n : Z) : bool :=
  match Prim2SF x with
  | S754_nan => false
  | S754_infinity s => negb s
  | S754_zero _ => n <? 0
  | S754_finite s m e =>
      let v := if s then Zneg m else Zpos m in
      if 0 <=? e then n <? v * pow2 e else n * pow2 (- e) <? v
  end.

(** The longest length that fits the clock type of the interpreter:
    CPython keeps a length of time as a signed 64-bit count of
    nanoseconds. *)
Definition sleep_max : Z := (2 ^ 63 - 1) / 10 ^ 9.

(** [time.sleep(secs)] for an [int], as CPython 3 on Linux has it. A length
    that does not fit the clock type raises [OverflowError], before its
    sign is looked at; a negative one raises [ValueError]; one that the
    clock of the platform does not take raises [OSError]: the deadline, the
    uptime plus the length, has to stay within the range of the kernel's
    clock. [limit] is the longest length, in whole seconds, that the
    platform takes at the time of the call; it is one second at least. *)
Definition time_sleep (limit : positive) (secs : Z) : result Z :=
  if (secs <? - sleep_max) || (sleep_max <? secs) then Raise OverflowError
  else if secs <? 0 then Raise ValueError
  else if Z.pos limit <? secs then Raise OSError
  else Ret secs.

(** How one turn ended: the seconds slept before the next turn, or the
    exception that left the [while] loop and ended the thread. *)
Record turn : Type := mkTurn {
  tn_state : pipeline;
  tn_calls : list call;
  tn_fetched : bool;
  tn_slept : result Z
}.

Section PollingLoop.
Variable host : Host.
Variable poll_settings : PollSettings.
(** The longest sleep the platform takes during the turn. *)
Variable sleep_limit : positive.

(** [idle = (time.time() - last_activity) > settings.ws_idle_timeout_sec] *)
Definition idle (now : float) (st : pipeline) : bool :=
  float_gt_Z (now - last_activity st)%float (ws_idle_timeout_sec poll_settings).

(** [should_poll = (not ws_connected) or idle] *)
Definition should_poll (ws_connected : bool) (now : float) (st : pipeline) : bool :=
  negb ws_connected || idle now st.

(** The sleep at the end of a pass. *)
Definition pass_sleep (log : list call) : result Z :=
  if (new_count log =? 0)%nat
  then time_sleep sleep_limit (polling_interval_sec poll_settings)
  else time_sleep sleep_limit (Z.max 1 (polling_interval_sec poll_settings / 2)).

(** The [except Exception] clause of the loop: whatever the body of the
    [try] raised is logged, and the sleep that follows is outside every
    [try]. *)
Definition on_poll_error : result Z :=
  time_sleep sleep_limit (polling_interval_sec poll_settings).

Definition except_poll (body : result Z) : result Z :=
  match body with
  | Ret secs => Ret secs
  | Raise _ => on_poll_error
  end.

(** The exception that ended the [for] loop of a pass, if one did. *)
Definition pass_error (log : list call) : option exn :=
  List.last (map (fun c => escapes (c_report c)) log) None.

(** One turn of [while not stop_event.is_set()]. [ws_connected] is what
    [ws.sio.connected] reads, [now] what [time.time()] reads, [get_trades]
    what the call of [wallex_http.get_trades] comes to. *)
Definition polling_turn (ws_connected : bool) (now : float)
    (get_trades : result pyval) (envs : nat -> env) (st : pipeline) : turn :=
  if negb (enable_polling poll_settings)
  then mkTurn st [] false (except_poll (time_sleep sleep_limit 1))
  else if negb (should_poll ws_connected now st)
  then mkTurn st [] false (except_poll (time_sleep sleep_limit 1))
  else
    match get_trades with
    | Raise ex => mkTurn st [] true (except_poll (Raise ex))
    | Ret resp =>
        let '(st', log) := poll_pass host envs resp st in
        mkTurn st' log true
          (except_poll
             (match pass_error log with
              | Some ex => Raise ex
              | None => pass_sleep log
              end))
    end.
End PollingLoop.

(** ** [src/config.py]: [load_settings] *)

Module Config.

(** The dataclass, every field of it. *)
Record Settings : Type := mkSettings {
  wallex_api_key : string;
  wallex_base_url : string;
  symbol : string;
  use_llm : bool;
  enable_pine : bool;
  gemini_api_key : string;
  gemini_model : string;
  trade_amount_quote : float;
  log_level : string;
  dry_run : bool;
  enable_polling : bool;
  polling_interval_sec : Z;
  ws_idle_timeout_sec : Z
}.

(** The defaults written in the dataclass. *)
Definition defaults : Settings :=
  mkSettings "" "https://api.wallex.ir" "BTCUSDT" true true "" "gemini-1.5-flash"
    10%float "INFO" true true 5 15.

(** [str.lower] on the characters of ASCII. A character outside ASCII is a
    sequence of bytes above 127 here and stays as it is; none of them
    lowers to a letter of ["true"], so the comparison below is the one of
    the interpreter. *)
Definition ascii_lower (a : ascii) : ascii :=
  let n := nat_of_ascii a in
  if (65 <=? n)%nat && (n <=? 90)%nat then ascii_of_nat (n + 32) else a.

Fixpoint lower (s : string) : string :=
  match s with
  | EmptyString => EmptyString
  | String a s' => String (ascii_lower a) (lower s')
  end.

(** [os.getenv(key, default)] on the environment left by [load_dotenv]. *)
Definition getenv (environ : gmap string string) (key dflt : string) : string :=
  match environ !! key with
  | Some v => v
  | None => dflt
  end.

(** [os.getenv(key, "true").lower() == "true"] *)
Definition flag (environ : gmap string string) (key : string) : bool :=
  String.eqb (lower (getenv environ key "true")) "true".

Section Load.
(** [float(s)] and [int(s)] of the builtins; [None] when they raise. *)
Variable float_of_str : string -> option float.
Variable int_of_str : string -> option Z.

Definition parse_float (s : string) : result float :=
  match float_of_str s with Some f => Ret f | None => Raise ValueError end.

Definition parse_int (s : string) : result Z :=
  match int_of_str s with Some z => Ret z | None => Raise ValueError end.

Definition load_settings (environ : gmap string string) : result Settings :=
  amount ← parse_float (getenv environ "TRADE_AMOUNT_USDT" "10");
  interval ← parse_int (getenv environ "POLLING_INTERVAL_SEC" "5");
  timeout ← parse_int (getenv environ "WS_IDLE_TIMEOUT_SEC" "15");
  Ret (mkSettings
         (getenv environ "WALLEX_API_KEY" "")
         (getenv environ "WALLEX_BASE_URL" "https://api.wallex.ir")
         (getenv environ "TRADE_SYMBOL" "BTCUSDT")
         (flag environ "USE_LLM")
         (flag environ "ENABLE_PINE")
         (getenv environ "GEMINI_API_KEY" "")
         (getenv environ "GEMINI_MODEL" "gemini-1.5-flash")
         amount
         (getenv environ "LOG_LEVEL" "INFO")
         (flag environ "DRY_RUN")
         (flag environ "ENABLE_POLLING")
         interval
         timeout).
End Load.

(** One of the sixteen ways to write ["true"] in capitals and small
    letters. *)
Definition spells_true (s : string) : Prop :=
  exists a b c d,
    s = String a (String b (String c (String d EmptyString))) /\
    (a = "t"%char \/ a = "T"%char) /\ (b = "r"%char \/ b = "R"%char) /\
    (c = "u"%char \/ c = "U"%char) /\ (d = "e"%char \/ d = "E"%char).

End Config.

(** The part of the settings that [run] gives to [handle_trade], and the
    part it gives to the poll loop. *)
Definition pipeline_settings (s : Config.Settings) : Settings :=
  mkSettings (Config.wallex_api_key s) (Config.symbol s) (Config.use_llm s)
    (Config.gemini_api_key s) (Config.trade_amount_quote s) (Config.dry_run s).

Definition poll_settings_of (s : Config.Settings) : PollSettings :=
  mkPollSettings (Config.enable_polling s) (Config.polling_interval_sec s)
    (Config.ws_idle_timeout_sec s).

(** ** [src/web/server.py]: the normalizers of the dashboard *)

(** [l[:limit]]: a negative [limit] counts from the end. *)
Definition py_take {A} (limit : Z) (l : list A) : list A :=
  if 0 <=? limit then firstn (Z.to_nat limit) l
  else firstn (length l - Z.to_nat (- limit)) l.

Section Normalizers.
Variable host : Host.

(** [_to_float(x, default)] *)
Definition _to_float (x : pyval) (dflt : float) : float :=
  except_Exception
    (match x with
     | PNone => Ret dflt
     | _ => py_float host x
     end)
    dflt.

(** The quantity of a record: [t.get("quantity") or t.get("q") or t.get("qty")] *)
Definition qty_val (d : list (string * pyval)) : pyval :=
  py_or (py_or (dict_get "quantity" d) (dict_get "q" d)) (dict_get "qty" d).

(** One row of [normalize_trades]. The timestamp is read without a [try]:
    [int] may raise. A record that is neither a dict nor a list of two
    items or more gives no row. *)
Definition trade_row (t : pyval) : result (list pyval) :=
  match t with
  | PDict d =>
      ts ← py_int host
             (py_or (py_or (py_or (dict_get "ts" d) (dict_get "T" d)) (dict_get "t" d))
                (PInt 0));
      Ret [PDict [("ts", PInt ts);
                  ("price", PFloat (_to_float (price_val d) 0%float));
                  ("qty", PFloat (_to_float (qty_val d) 0%float));
                  ("raw", t)]]
  | PList (a :: b :: _) =>
      Ret [PDict [("ts", PInt 0);
                  ("price", PFloat (_to_float a 0%float));
                  ("qty", PFloat (_to_float b 0%float));
                  ("raw", t)]]
  | _ => Ret []
  end.

Fixpoint trade_rows (trades : list pyval) : result (list pyval) :=
  match trades with
  | [] => Ret []
  | t :: rest =>
      row ← trade_row t;
      rows ← trade_rows rest;
      Ret (row ++ rows)%list
  end.

(** [normalize_trades]: the list of trades is looked for as the poll loop
    looks for its candidates. *)
Definition normalize_trades (raw : pyval) : result (list pyval) :=
  trade_rows (candidates_of raw).

(** One entry of a side of the book, in [_norm]. *)
Definition depth_row (e : pyval) : list pyval :=
  match e with
  | PDict d =>
      [PDict [("price", PFloat (_to_float (price_val d) 0%float));
              ("qty", PFloat (_to_float (qty_val d) 0%float))]]
  | PList (a :: b :: _) =>
      [PDict [("price", PFloat (_to_float a 0%float));
              ("qty", PFloat (_to_float b 0%float))]]
  | _ => []
  end.

(** [_norm(side)]: [side] is gone through by a [for] loop, then cut. *)
Definition _norm (limit : Z) (side : pyval) : result (list pyval) :=
  entries ← py_iter side;
  Ret (py_take limit (flat_map depth_row entries)).

(** [normalize_depth(raw, limit)], as the pair of its ["bids"] and ["asks"]. *)
Definition normalize_depth (raw : pyval) (limit : Z)
    : result (list pyval * list pyval) :=
  let bids :=
    match raw with
    | PDict d => py_or (py_or (dict_get "bids" d) (dict_get "Bids" d)) (PList [])
    | _ => PList []
    end in
  let asks :=
    match raw with
    | PDict d => py_or (py_or (dict_get "asks" d) (dict_get "Asks" d)) (PList [])
    | _ => PList []
    end in
  b ← _norm limit bids;
  a ← _norm limit asks;
  Ret (b, a).
End Normalizers.

(** ** Readings of a log *)

(** The timestamps of a list of events, those that have one. *)
Definition stamps (host : Host) (events : list pyval) : list Z :=
  List.filter (fun z => negb (z =? 0)) (map (_extract_ts host) events).

(** A call that sent an order to the exchange. *)
Definition submitted (r : report) : bool :=
  match r with
  | Accepted _ (Some (mkTrigger _ (Ret (_, Submitted _ _)))) => true
  | _ => false
  end.


(** ** Readings of a response of the decision service *)

(** A candidate of the expected shape, from its parts. *)
Definition candidate (parts : list pyval) : pyval :=
  PDict [("content", PDict [("parts", PList parts)])].

(** A part of the expected shape: a dict without ["text"], or with a
    string under it. *)
Definition plain_part (p : pyval) : Prop :=
  exists d, p = PDict d /\
            (assoc "text" d = None \/ exists t, assoc "text" d = Some (PStr t)).

(** What a part adds to the text: its string and a newline, or nothing. *)
Definition part_text (p : pyval) : string :=
  match p with
  | PDict d =>
      match assoc "text" d with
      | Some (PStr t) => t ++ String (ascii_of_nat 10) EmptyString
      | _ => ""
      end
  | _ => ""
  end.

(** Strings put end to end. *)
Definition join (l : list string) : string := fold_right String.append "" l.

(** The parts of a candidate of the expected shape: a dict whose
    ["content"], when there is one, is a dict whose ["parts"], when there
    is one, is a list. The other fields of the candidate and of its content
    are not looked at. *)
Definition candidate_parts (cand : pyval) : option (list pyval) :=
  match cand with
  | PDict d =>
      match assoc "content" d with
      | None => Some []
      | Some (PDict c) =>
          match assoc "parts" c with
          | None => Some []
          | Some (PList ps) => Some ps
          | Some _ => None
          end
      | Some _ => None
      end
  | _ => None
  end.

(** A candidate of the expected shape, with its parts, each of them
    plain. *)
Definition plain_candidate (cand : pyval) (ps : list pyval) : Prop :=
  candidate_parts cand = Some ps /\ Forall plain_part ps.

(** The classes of the exceptions raised by reading a value of the wrong
    shape. *)
Definition local_error (ex : exn) : Prop :=
  ex = AttributeError \/ ex = TypeError \/ ex = KeyError.

(** The text that [analyze] reads out of a body: the lines of its [try]
    block from [data.get("candidates", [])] to the end of the two loops. *)
Definition read_text (data : pyval) : result string :=
  cands_v ← py_get_default data "candidates" (PList []);
  cands ← py_iter cands_v;
  candidates_text cands "".

(** ** [src/wallex/ws_client.py]: what went out on the socket *)

(** Every request that went out asked for a channel of the set. *)
Definition requests_are_subscribed (c : WallexWSClient) : Prop :=
  Forall (fun r => exists ch, r = subscribe_request ch /\ ch ∈ _subscriptions c)
    (emitted c).

(** ** Further sample inputs *)

(** A body of the decision service of the expected shape: one candidate
    with one part, whose text holds an object. *)
Definition long_body : pyval :=
  PDict [("candidates", PList [candidate [PDict [("text", PStr "say {} now")]]])].

(** The fields of a decision to go long. *)
Definition long_fields : pyval :=
  PDict [("action", PStr "long"); ("confidence", PFloat 0.9%float);
         ("reason", PStr "up")].

(** A world in which the decision service answers [long_body] and the
    exchange takes every order. *)
Definition answering : env :=
  mkEnv 0%float (fun _ => HttpJson long_body) (fun _ => Ret (PDict [])).

(** An environment that switches dry-run and polling off and sets the two
    keys. *)
Definition trading_environ : gmap string string :=
  <["DRY_RUN" := "false"]>
    (<["ENABLE_POLLING" := "0"]>
       (<["WALLEX_API_KEY" := "k"]> (<["GEMINI_API_KEY" := "g"]> ∅))).

(** The settings read from it. *)
Definition trading_settings : Config.Settings :=
  Config.mkSettings "k" "https://api.wallex.ir" "BTCUSDT" true true "g"
    "gemini-1.5-flash" 10%float "INFO" false false 5 15.

(** A host with these settings, whose [json.loads] reads every object as
    [long_fields]. *)
Definition trading_host : Host :=
  mkHost unparsed unparsed (fun _ => Some long_fields)
    (pipeline_settings trading_settings).

(** The state after the trades [1 .. 5]. *)
Definition five_trades : pipeline :=
  mkPipeline (map (fun i => trade (Z.of_nat i) 50000%float) (seq 1 5)) 5 0%float.

(** A book with two bids as pairs and one ask as a dict. *)
Definition sample_book : pyval :=
  PDict [("bids", PList [PList [PInt 1; PInt 2]; PList [PInt 3; PInt 4]]);
         ("asks", PList [PDict [("price", PFloat 5%float); ("qty", PInt 1)]])].

(** Parsers that read the three numerals of the defaults and nothing
    else. *)
Definition numeral_float (s : string) : option float :=
  if String.eqb s "10" then Some 10%float else None.

Definition numeral_int (s : string) : option Z :=
  if String.eqb s "5" then Some 5
  else if String.eqb s "15" then Some 15
  else None.

(** * The sizing engine *)

Lemma float_pos_not_le (x : float) :
  (0 <? x)%float = true -> (x <=? 0)%float = false.
Proof.
  rewrite ltb_spec, leb_spec. unfold SFltb, SFleb.
  replace (Prim2SF 0) with (S754_zero false) by reflexivity.
  destruct (Prim2SF x) as [s| s | |s m e]; simpl; try destruct s; simpl; congruence.
Qed.

Lemma py_eq_str_true (v : pyval) (s : string) :
  py_eq_str v s = true <-> v = PStr s.
Proof.
  destruct v; simpl; try (split; [discriminate | congruence]).
  rewrite String.eqb_eq. split; congruence.
Qed.

Lemma py_eq_str_false (v : pyval) (s : string) :
  py_eq_str v s = false <-> v <> PStr s.
Proof.
  rewrite <- py_eq_str_true. destruct (py_eq_str v s); split; congruence.
Qed.

(** The quantity of the two orders of the specification. *)
Example format_quantity_10_50000 :
  _format_quantity (10 / 50000)%float = 0.0002%float.
Proof. vm_compute. reflexivity. Qed.

Example format_quantity_below_minimum :
  float_6f (0.0000005 / 1)%float = 0%float /\
  _format_quantity (0.0000005 / 1)%float = 0%float.
Proof. split; vm_compute; reflexivity. Qed.

(** C5. [decide_order]: a flat decision gives no order at any price; a
    price [<= 0] gives no order for any decision; with a budget of 10, a
    price of 50000 and a long decision the order is a MARKET BUY of 0.0002;
    with a budget of 0.0000005 and a price of 1 the quantity printed with
    six decimals is below 0.000001 and no order is made. *)
Theorem decide_order_spec :
  (forall eng price d,
      action d = PStr "flat" -> decide_order eng price d = None) /\
  (forall eng price d,
      (price <=? 0)%float = true -> decide_order eng price d = None) /\
  (forall sym c r sl tp,
      decide_order (mkTradingEngine sym 10%float) 50000%float
        (mkLLMDecision (PStr "long") c r sl tp)
      = Some (mkOrderRequest sym "BUY" "MARKET" 0.0002%float None)) /\
  (forall sym d,
      (float_6f (0.0000005 / 1) <? 0.000001)%float = true /\
      decide_order (mkTradingEngine sym 0.0000005%float) 1%float d = None).
Proof.
  split; [| split; [| split]].
  - intros eng price d Hflat. unfold decide_order. rewrite Hflat. reflexivity.
  - intros eng price d Hle. unfold decide_order. rewrite Hle.
    destruct (py_eq_str (action d) "flat"); reflexivity.
  - intros. vm_compute. reflexivity.
  - intros sym d. split; [vm_compute; reflexivity |].
    unfold decide_order.
    destruct (py_eq_str (action d) "flat"); [reflexivity |].
    vm_compute. reflexivity.
Qed.

Lemma decide_order_spec_witness :
  decide_order (mkTradingEngine "BTCUSDT" 10%float) 50000%float
    (fallback "No text in LLM response") = None /\
  decide_order (mkTradingEngine "BTCUSDT" 10%float) 0%float
    (mkLLMDecision (PStr "long") (PFloat 1%float) (PStr "up") PNone PNone) = None /\
  decide_order (mkTradingEngine "BTCUSDT" 10%float) (-1)%float
    (mkLLMDecision (PStr "short") (PFloat 1%float) (PStr "down") PNone PNone) = None.
Proof.
  destruct decide_order_spec as (Hflat & Hprice & _).
  split; [| split].
  - apply Hflat. reflexivity.
  - apply Hprice. vm_compute. reflexivity.
  - apply Hprice. vm_compute. reflexivity.
Defined.

(** C10. With a positive price and a budget that leaves a positive quantity,
    [decide_order] returns no order exactly when the action is the string
    "flat", a BUY exactly when it is the string "long", and a SELL for every
    other action, whatever value the decision service put there. *)
Theorem decide_order_side (eng : TradingEngine) (price : float) (d : LLMDecision) :
  (0 <? price)%float = true ->
  (0 <? _format_quantity (quote_amount eng / price))%float = true ->
  (decide_order eng price d = None <-> action d = PStr "flat") /\
  (forall o, decide_order eng price d = Some o ->
             (side o = "BUY" <-> action d = PStr "long")) /\
  (action d <> PStr "flat" -> action d <> PStr "long" ->
   decide_order eng price d
   = Some (mkOrderRequest (te_symbol eng) "SELL" "MARKET"
             (_format_quantity (quote_amount eng / price)) None)).
Proof.
  intros Hprice Hqty.
  apply float_pos_not_le in Hprice. apply float_pos_not_le in Hqty.
  unfold decide_order. rewrite Hprice, Hqty.
  destruct (py_eq_str (action d) "flat") eqn:Hflat.
  - apply py_eq_str_true in Hflat. repeat split; try congruence.
  - apply py_eq_str_false in Hflat.
    destruct (py_eq_str (action d) "long") eqn:Hlong.
    + apply py_eq_str_true in Hlong.
      split; [split; congruence |].
      split; [| congruence].
      intros o Ho. injection Ho as <-. simpl. split; congruence.
    + apply py_eq_str_false in Hlong.
      split; [split; congruence |].
      split; [| reflexivity].
      intros o Ho. injection Ho as <-. simpl. split; [discriminate | congruence].
Qed.

Lemma decide_order_side_witness :
  decide_order (mkTradingEngine "BTCUSDT" 10%float) 50000%float
    (mkLLMDecision (PStr "hold") (PFloat 0.5%float) (PStr "wait") PNone PNone)
  = Some (mkOrderRequest "BTCUSDT" "SELL" "MARKET" 0.0002%float None) /\
  decide_order (mkTradingEngine "BTCUSDT" 10%float) 50000%float
    (mkLLMDecision (PStr "buy") (PFloat 0.5%float) (PStr "go") PNone PNone)
  = Some (mkOrderRequest "BTCUSDT" "SELL" "MARKET" 0.0002%float None) /\
  decide_order (mkTradingEngine "BTCUSDT" 10%float) 50000%float
    (mkLLMDecision (PInt 1) (PFloat 0.5%float) (PStr "go") PNone PNone)
  = Some (mkOrderRequest "BTCUSDT" "SELL" "MARKET" 0.0002%float None).
Proof.
  split; [| split].
  - apply (decide_order_side (mkTradingEngine "BTCUSDT" 10%float) 50000%float
             (mkLLMDecision (PStr "hold") (PFloat 0.5%float) (PStr "wait") PNone PNone));
      [vm_compute; reflexivity | vm_compute; reflexivity | discriminate | discriminate].
  - apply (decide_order_side (mkTradingEngine "BTCUSDT" 10%float) 50000%float
             (mkLLMDecision (PStr "buy") (PFloat 0.5%float) (PStr "go") PNone PNone));
      [vm_compute; reflexivity | vm_compute; reflexivity | discriminate | discriminate].
  - apply (decide_order_side (mkTradingEngine "BTCUSDT" 10%float) 50000%float
             (mkLLMDecision (PInt 1) (PFloat 0.5%float) (PStr "go") PNone PNone));
      [vm_compute; reflexivity | vm_compute; reflexivity | discriminate | discriminate].
Defined.

(** * The stable sort of the poll loop *)

Section SortedFacts.
Context {A : Type} (key : A -> Z).

Lemma insert_by_perm (x : A) (l : list A) :
  Permutation (insert_by key x l) (x :: l).
Proof.
  induction l as [| y l IH]; simpl; [reflexivity |].
  destruct (key x <=? key y); [reflexivity |].
  rewrite IH. apply perm_swap.
Qed.

Lemma sorted_perm (l : list A) : Permutation (sorted key l) l.
Proof.
  induction l as [| x l IH]; simpl; [reflexivity |].
  rewrite insert_by_perm, IH. reflexivity.
Qed.

Lemma insert_by_sorted (x : A) (l : list A) :
  StronglySorted (key_le key) l -> StronglySorted (key_le key) (insert_by key x l).
Proof.
  induction 1 as [| y l Hs IH Hall]; simpl.
  - constructor; constructor.
  - destruct (key x <=? key y) eqn:E.
    + apply Z.leb_le in E. constructor.
      * constructor; assumption.
      * constructor; [exact E |].
        eapply List.Forall_impl; [| exact Hall].
        intros z Hz. unfold key_le in *. lia.
    + apply Z.leb_gt in E. constructor; [exact IH |].
      eapply Permutation_Forall; [symmetry; apply insert_by_perm |].
      constructor; [unfold key_le; lia | exact Hall].
Qed.

Lemma sorted_sorted (l : list A) : StronglySorted (key_le key) (sorted key l).
Proof.
  induction l as [| x l IH]; simpl; [constructor |].
  apply insert_by_sorted. exact IH.
Qed.

(** The sort is stable: the items of one key keep their order. *)
Lemma insert_by_stable (k : Z) (x : A) (l : list A) :
  List.filter (fun y => key y =? k) (insert_by key x l)
  = List.filter (fun y => key y =? k) (x :: l).
Proof.
  induction l as [| y l IH]; [reflexivity |].
  cbn [insert_by]. destruct (key x <=? key y) eqn:E; [reflexivity |].
  apply Z.leb_gt in E.
  cbn [List.filter] in *. rewrite IH.
  destruct (key x =? k) eqn:Ex; [| reflexivity].
  apply Z.eqb_eq in Ex.
  assert (Ey : (key y =? k) = false) by (apply Z.eqb_neq; lia).
  rewrite Ey. reflexivity.
Qed.

Lemma sorted_stable (k : Z) (l : list A) :
  List.filter (fun y => key y =? k) (sorted key l)
  = List.filter (fun y => key y =? k) l.
Proof.
  induction l as [| x l IH]; [reflexivity |].
  cbn [sorted]. rewrite insert_by_stable. cbn [List.filter]. rewrite IH. reflexivity.
Qed.

Lemma sorted_30_10_20 (a b c : A) :
  key a = 30 -> key b = 10 -> key c = 20 -> sorted key [a; b; c] = [b; c; a].
Proof.
  intros Ha Hb Hc. simpl. rewrite Hb, Hc. simpl. rewrite Ha, Hb, ?Hc. reflexivity.
Qed.
End SortedFacts.

(** * The merge buffer *)

Lemma py_suffix_short {A} (n : nat) (l : list A) :
  (length l <= n)%nat -> py_suffix n l = l.
Proof.
  intros H. unfold py_suffix.
  replace (length l - n)%nat with 0%nat by lia. reflexivity.
Qed.

Lemma py_suffix_length {A} (n : nat) (l : list A) :
  length (py_suffix n l) = Nat.min (length l) n.
Proof. unfold py_suffix. rewrite length_skipn. lia. Qed.

(** Appending to the kept suffix and cutting again is cutting the whole. *)
Lemma py_suffix_snoc {A} (n : nat) (h : list A) (x : A) :
  (0 < n)%nat ->
  py_suffix n (py_suffix n h ++ [x]) = py_suffix n (h ++ [x]).
Proof.
  intros Hn. unfold py_suffix.
  rewrite !length_app, length_skipn. simpl.
  destruct (Nat.le_gt_cases (length h) n) as [Hle | Hgt].
  - replace (length h - n)%nat with 0%nat by lia.
    rewrite Nat.sub_0_r. reflexivity.
  - rewrite !skipn_app, length_skipn, skipn_skipn.
    f_equal; [f_equal; lia |].
    f_equal. lia.
Qed.

(** The window after an append, as [handle_trade] computes it. *)
Lemma window_after_append {A} (h : list A) (x : A) :
  (if (200 <? length (py_suffix 200 h ++ [x]))%nat
   then py_suffix 200 (py_suffix 200 h ++ [x])
   else py_suffix 200 h ++ [x])%list
  = py_suffix 200 (h ++ [x]).
Proof.
  destruct (200 <? length (py_suffix 200 h ++ [x]))%nat eqn:E.
  - apply py_suffix_snoc. lia.
  - apply Nat.ltb_ge in E.
    rewrite <- (py_suffix_short 200 (py_suffix 200 h ++ [x])) at 1 by exact E.
    apply py_suffix_snoc. lia.
Qed.

Section PipelineFacts.
Variable host : Host.



(** The three outcomes of a call, by its guard. *)
Lemma handle_trade_rejected e d st :
  _extract_ts host (PDict d) <> 0 -> _extract_ts host (PDict d) <= last_trade_ts st ->
  handle_trade host e (PDict d) st = (st, Rejected).
Proof.
  intros Hnz Hle. unfold handle_trade.
  apply Z.eqb_neq in Hnz. apply Z.leb_le in Hle.
  rewrite Hnz, Hle. reflexivity.
Qed.

Lemma handle_trade_accepted e d st :
  _extract_ts host (PDict d) = 0 \/ last_trade_ts st < _extract_ts host (PDict d) ->
  exists price trig,
    snd (handle_trade host e (PDict d) st) = Accepted price trig /\
    recent_trades (fst (handle_trade host e (PDict d) st))
    = (let appended := (recent_trades st ++ [PDict d])%list in
       if (200 <? length appended)%nat then py_suffix 200 appended else appended) /\
    last_trade_ts (fst (handle_trade host e (PDict d) st))
    = (if _extract_ts host (PDict d) =? 0 then last_trade_ts st else _extract_ts host (PDict d)) /\
    last_activity (fst (handle_trade host e (PDict d) st)) = time_time e.
Proof.
  intros H. unfold handle_trade.
  assert (G : negb (_extract_ts host (PDict d) =? 0)
              && (_extract_ts host (PDict d) <=? last_trade_ts st) = false).
  { destruct H as [H | H].
    - rewrite H. reflexivity.
    - apply andb_false_iff. right. apply Z.leb_gt. exact H. }
  rewrite G.
  destruct (_extract_ts host (PDict d) =? 0) eqn:E; simpl negb; cbv iota;
    match goal with
    | |- context [if ?b then (_, Accepted ?p (Some ?t)) else _] =>
        destruct b; simpl; eauto 10
    end.
Qed.

Lemma handle_trade_cases e data st :
  (handle_trade host e data st = (st, Ignored) /\ forall d, data <> PDict d) \/
  (handle_trade host e data st = (st, Rejected) /\
     _extract_ts host data <> 0 /\ _extract_ts host data <= last_trade_ts st) \/
  (accepted (snd (handle_trade host e data st)) = true /\
     (exists d, data = PDict d) /\
     (_extract_ts host data = 0 \/ last_trade_ts st < _extract_ts host data)).
Proof.
  destruct data as [| | | | | |d];
    try (left; split; [reflexivity | intros; discriminate]).
  right.
  destruct (Z.eq_dec (_extract_ts host (PDict d)) 0) as [Hz | Hnz].
  - right. destruct (handle_trade_accepted e d st (or_introl Hz)) as (p & t & Hr & _).
    rewrite Hr. eauto.
  - destruct (Z_le_gt_dec (_extract_ts host (PDict d)) (last_trade_ts st)) as [Hle | Hgt].
    + left. split; [apply handle_trade_rejected; assumption | split; assumption].
    + right.
      assert (H : _extract_ts host (PDict d) = 0 \/ last_trade_ts st < _extract_ts host (PDict d))
        by (right; lia).
      destruct (handle_trade_accepted e d st H) as (p & t & Hr & _).
      rewrite Hr. eauto.
Qed.

(** C2. An event whose timestamp is not zero and is at most the watermark
    (equal to it included) is rejected: the call returns the state it
    was given, watermark, activity clock and window alike, nothing is
    counted as accepted and the decision function is not invoked. *)
Theorem stale_event_rejected (e : env) (data : pyval) (st : pipeline) :
  _extract_ts host data <> 0 ->
  _extract_ts host data <= last_trade_ts st ->
  handle_trade host e data st = (st, Rejected) /\
  fired (snd (handle_trade host e data st)) = false /\
  accepted_events [mkCall e data (snd (handle_trade host e data st))] = [].
Proof.
  intros Hnz Hle.
  assert (H : handle_trade host e data st = (st, Rejected)).
  { destruct data as [| | | | | |d]; try (exfalso; apply Hnz; reflexivity).
    apply handle_trade_rejected; assumption. }
  rewrite H. repeat split.
Qed.

(** *** The watermark *)



Lemma replay_app l1 l2 st :
  replay host (l1 ++ l2) st = replay host l2 (replay host l1 st).
Proof. unfold replay. apply fold_left_app. Qed.

(** Every change of the state is a call of [handle_trade]: the state
    after a pass, a message or a run is the state after its calls. *)
Lemma feed_sorted_replay envs trs : forall i st,
  fst (feed_sorted host envs i trs st) = replay host (snd (feed_sorted host envs i trs st)) st.
Proof.
  induction trs as [| tr rest IH]; intros i st; simpl; [reflexivity |].
  destruct (negb (_extract_ts host tr =? 0) && (_extract_ts host tr <=? last_trade_ts st)).
  - apply IH.
  - destruct (handle_trade host (envs i) tr st) as [st1 r] eqn:Hh.
    destruct (escapes r).
    + simpl. rewrite Hh. reflexivity.
    + specialize (IH (S i) st1).
      destruct (feed_sorted host envs (S i) rest st1) as [st2 log]. simpl in *.
      rewrite Hh. simpl. exact IH.
Qed.

Lemma step_replay f st :
  fst (step host f st) = replay host (snd (step host f st)) st.
Proof.
  destruct f as [e channel data | envs resp]; simpl.
  - unfold on_msg. destruct (endswith channel "@trade"); [| reflexivity].
    destruct (handle_trade host e data st) as [st1 r] eqn:Hh. simpl. rewrite Hh. reflexivity.
  - apply feed_sorted_replay.
Qed.

Lemma run_replay fs : forall st,
  fst (run host fs st) = replay host (snd (run host fs st)) st.
Proof.
  induction fs as [| f fs IH]; intros st; simpl; [reflexivity |].
  pose proof (step_replay f st) as Hs.
  destruct (step host f st) as [st1 log1]. simpl in Hs.
  specialize (IH st1). destruct (run host fs st1) as [st2 log2]. simpl in *.
  rewrite replay_app, <- Hs. exact IH.
Qed.








(** *** The window *)

Lemma accepted_events_app l1 l2 :
  accepted_events (l1 ++ l2) = (accepted_events l1 ++ accepted_events l2)%list.
Proof. unfold accepted_events. rewrite List.filter_app, map_app. reflexivity. Qed.

(** One call keeps the window the last 200 of what was accepted. *)
Lemma handle_trade_window e data st (h : list pyval) :
  recent_trades st = py_suffix 200 h ->
  recent_trades (fst (handle_trade host e data st))
  = py_suffix 200 (h ++ accepted_events [mkCall e data (snd (handle_trade host e data st))]).
Proof.
  intros Inv.
  destruct (handle_trade_cases e data st) as [[H _] | [[H _] | (Ha & [d ->] & Hts)]];
    try (rewrite H; simpl; rewrite app_nil_r; exact Inv).
  unfold accepted_events. cbn [List.filter c_report]. rewrite Ha. cbn [map c_data].
  destruct (handle_trade_accepted e d st Hts) as (p & t & _ & Hw & _).
  rewrite Hw, Inv. apply window_after_append.
Qed.

Lemma feed_sorted_window envs trs : forall i st (h : list pyval),
  recent_trades st = py_suffix 200 h ->
  recent_trades (fst (feed_sorted host envs i trs st))
  = py_suffix 200 (h ++ accepted_events (snd (feed_sorted host envs i trs st))).
Proof.
  induction trs as [| tr rest IH]; intros i st h Inv; simpl.
  - rewrite app_nil_r. exact Inv.
  - destruct (negb (_extract_ts host tr =? 0) && (_extract_ts host tr <=? last_trade_ts st)).
    + apply IH. exact Inv.
    + pose proof (handle_trade_window (envs i) tr st h Inv) as Hstep.
      destruct (handle_trade host (envs i) tr st) as [st1 r]. simpl in Hstep.
      destruct (escapes r).
      * exact Hstep.
      * specialize (IH (S i) st1 _ Hstep).
        destruct (feed_sorted host envs (S i) rest st1) as [st2 log]. simpl in *.
        rewrite IH, <- app_assoc.
        change (mkCall (envs i) tr r :: log) with ([mkCall (envs i) tr r] ++ log)%list.
        rewrite accepted_events_app. reflexivity.
Qed.

Lemma step_window f st (h : list pyval) :
  recent_trades st = py_suffix 200 h ->
  recent_trades (fst (step host f st))
  = py_suffix 200 (h ++ accepted_events (snd (step host f st))).
Proof.
  intros Inv. destruct f as [e channel data | envs resp]; simpl.
  - unfold on_msg. destruct (endswith channel "@trade").
    + pose proof (handle_trade_window e data st h Inv) as Hstep.
      destruct (handle_trade host e data st) as [st1 r]. exact Hstep.
    + simpl. rewrite app_nil_r. exact Inv.
  - apply feed_sorted_window. exact Inv.
Qed.

Lemma run_window fs : forall st (h : list pyval),
  recent_trades st = py_suffix 200 h ->
  recent_trades (fst (run host fs st))
  = py_suffix 200 (h ++ accepted_events (snd (run host fs st))).
Proof.
  induction fs as [| f fs IH]; intros st h Inv; simpl.
  - rewrite app_nil_r. exact Inv.
  - pose proof (step_window f st h Inv) as Hs.
    destruct (step host f st) as [st1 log1]. simpl in Hs.
    specialize (IH st1 _ Hs).
    destruct (run host fs st1) as [st2 log2]. simpl in *.
    rewrite IH, accepted_events_app, app_assoc. reflexivity.
Qed.


(** *** The cadence of the decision trigger *)

(** When a call accepts its event, the decision function is invoked
exactly when a client exists, the length of the window after the call is a
multiple of 6 and the price of the event is positive. *)
Lemma handle_trade_fired e d st :
  _extract_ts host (PDict d) = 0 \/ last_trade_ts st < _extract_ts host (PDict d) ->
  fired (snd (handle_trade host e (PDict d) st))
  = llm host
    && (length (recent_trades (fst (handle_trade host e (PDict d) st))) mod 6 =? 0)%nat
    && (0 <? extract_price host d)%float.
Proof.
  intros H. unfold handle_trade.
  assert (G : negb (_extract_ts host (PDict d) =? 0)
              && (_extract_ts host (PDict d) <=? last_trade_ts st) = false).
  { destruct H as [H | H].
    - rewrite H. reflexivity.
    - apply andb_false_iff. right. apply Z.leb_gt. exact H. }
  rewrite G.
  match goal with
  | |- context [if ?b then (_, Accepted ?p (Some ?t)) else _] =>
      destruct b eqn:E; cbn [fst snd fired recent_trades]; rewrite E; reflexivity
  end.
Qed.

(** The count the trigger looks at is the length of the window, and the
window stops growing at 200: after [n] accepted events, the next one is
judged on [min (n + 1) 200]. *)
Lemma trigger_cadence fs t0 e d :
  let st := fst (run host fs (start t0)) in
  let n := length (accepted_events (snd (run host fs (start t0)))) in
  _extract_ts host (PDict d) = 0 \/ last_trade_ts st < _extract_ts host (PDict d) ->
  fired (snd (handle_trade host e (PDict d) st))
  = llm host
    && (Nat.min (S n) 200 mod 6 =? 0)%nat
    && (0 <? extract_price host d)%float.
Proof.
  intros st n H.
  rewrite (handle_trade_fired e d st H).
  assert (Inv : recent_trades st
                = py_suffix 200 (accepted_events (snd (run host fs (start t0))))).
  { apply (run_window fs (start t0) []). reflexivity. }
  rewrite (handle_trade_window e (PDict d) st _ Inv).
  destruct (handle_trade_accepted e d st H) as (p & t & Hr & _).
  rewrite Hr.
  change (accepted_events [mkCall e (PDict d) (Accepted p t)]) with [PDict d].
  rewrite py_suffix_length, length_app. cbn [length].
  fold n. replace (n + 1)%nat with (S n) by lia. reflexivity.
Qed.

(** Up to the 200th accepted event the trigger follows the count. *)
Lemma trigger_follows_count fs t0 e d :
  let st := fst (run host fs (start t0)) in
  let n := length (accepted_events (snd (run host fs (start t0)))) in
  _extract_ts host (PDict d) = 0 \/ last_trade_ts st < _extract_ts host (PDict d) ->
  (S n <= 200)%nat ->
  fired (snd (handle_trade host e (PDict d) st))
  = llm host && (S n mod 6 =? 0)%nat && (0 <? extract_price host d)%float.
Proof.
  intros st n H Hn. unfold st, n. rewrite (trigger_cadence fs t0 e d H).
  fold n. rewrite Nat.min_l by exact Hn. reflexivity.
Qed.

(** From the 200th accepted event on it is silent: [200 mod 6 = 2]. *)
Lemma trigger_silent_at_capacity fs t0 e data :
  let st := fst (run host fs (start t0)) in
  let n := length (accepted_events (snd (run host fs (start t0)))) in
  (200 <= S n)%nat ->
  fired (snd (handle_trade host e data st)) = false.
Proof.
  intros st n Hn.
  destruct (handle_trade_cases e data st) as [[H _] | [[H _] | (_ & [d ->] & Hts)]];
    try (rewrite H; reflexivity).
  unfold st. rewrite (trigger_cadence fs t0 e d Hts). fold n.
  rewrite Nat.min_r by exact Hn.
  destruct (llm host); reflexivity.
Qed.

(** *** The poll loop *)

Lemma feed_sorted_sublist envs trs : forall i st,
  sublist (map c_data (snd (feed_sorted host envs i trs st))) trs.
Proof.
  induction trs as [| tr rest IH]; intros i st; cbn [feed_sorted].
  - constructor.
  - destruct (negb (_extract_ts host tr =? 0) && (_extract_ts host tr <=? last_trade_ts st)).
    + apply sublist_cons. apply IH.
    + destruct (handle_trade host (envs i) tr st) as [st1 r].
      destruct (escapes r).
      * cbn. apply sublist_skip. apply sublist_nil_l.
      * specialize (IH (S i) st1).
        destruct (feed_sorted host envs (S i) rest st1) as [st2 log].
        cbn in *. apply sublist_skip. exact IH.
Qed.

(** A record that the loop hands to [handle_trade] and that is accepted had
no timestamp, or one above the watermark it met. *)
Lemma feed_sorted_accepted envs trs : forall i st l1 c l2,
  snd (feed_sorted host envs i trs st) = (l1 ++ c :: l2)%list ->
  accepted (c_report c) = true ->
  (exists d, c_data c = PDict d) /\
  (_extract_ts host (c_data c) = 0 \/
   last_trade_ts (replay host l1 st) < _extract_ts host (c_data c)).
Proof.
  induction trs as [| tr rest IH]; intros i st l1 c l2; cbn [feed_sorted].
  - intros H. destruct l1; discriminate.
  - destruct (negb (_extract_ts host tr =? 0) && (_extract_ts host tr <=? last_trade_ts st)).
    + apply IH.
    + pose proof (handle_trade_cases (envs i) tr st) as Hc.
      destruct (handle_trade host (envs i) tr st) as [st1 r] eqn:Hh.
      assert (Hhead : forall l', (mkCall (envs i) tr r :: l' = l1 ++ c :: l2)%list ->
                (l1 = [] /\ c = mkCall (envs i) tr r) \/
                (exists l1', l1 = mkCall (envs i) tr r :: l1' /\ l' = (l1' ++ c :: l2)%list)).
      { intros l' E. destruct l1 as [| c0 l1']; injection E as E1 E2.
        - left. split; congruence.
        - right. exists l1'. split; congruence. }
      assert (Hnow : accepted r = true ->
                (exists d, tr = PDict d) /\
                (_extract_ts host tr = 0 \/ last_trade_ts st < _extract_ts host tr)).
      { intros Ha. destruct Hc as [[Hc _] | [[Hc _] | (_ & Hd & Hts)]].
        - injection Hc as _ ->. discriminate.
        - injection Hc as _ ->. discriminate.
        - split; assumption. }
      destruct (escapes r).
      * cbn [snd]. intros E Ha. destruct (Hhead [] E) as [[-> ->] | (l1' & _ & E')].
        -- apply Hnow. exact Ha.
        -- destruct l1'; discriminate.
      * specialize (IH (S i) st1).
        destruct (feed_sorted host envs (S i) rest st1) as [st2 log]. cbn [snd] in *.
        intros E Ha. destruct (Hhead log E) as [[-> ->] | (l1' & -> & E')].
        -- apply Hnow. exact Ha.
        -- cbn [replay fold_left c_env c_data]. rewrite Hh. cbn [fst].
           apply (IH l1' c l2 E' Ha).
Qed.

(** The batch of the specification. *)
Lemma poll_pass_30_10_20 envs da db dc w t :
  _extract_ts host (PDict da) = 30 ->
  _extract_ts host (PDict db) = 10 ->
  _extract_ts host (PDict dc) = 20 ->
  let st := mkPipeline w 15 t in
  let log := snd (poll_pass host envs (PList [PDict da; PDict db; PDict dc]) st) in
  Forall (fun c => escapes (c_report c) = None) log ->
  map c_data log = [PDict dc; PDict da] /\
  accepted_events log = [PDict dc; PDict da] /\
  last_trade_ts (fst (poll_pass host envs (PList [PDict da; PDict db; PDict dc]) st)) = 30.
Proof.
  intros Ha Hb Hc st log. unfold log, poll_pass. cbn [candidates_of].
  rewrite (sorted_30_10_20 (_extract_ts host) _ _ _ Ha Hb Hc).
  cbn [feed_sorted]. rewrite Hb, Hc.
  cbn [last_trade_ts st negb andb Z.eqb Z.leb Z.compare Pos.compare
       Pos.compare_cont].
  assert (H20 : _extract_ts host (PDict dc) = 0 \/ last_trade_ts st < _extract_ts host (PDict dc))
    by (right; rewrite Hc; cbn; lia).
  destruct (handle_trade_accepted (envs 1%nat) dc st H20) as (p1 & t1 & Hr1 & _ & Hw1 & _).
  destruct (handle_trade host (envs 1%nat) (PDict dc) st) as [st1 r1]. cbn [fst snd] in *.
  rewrite Hc in Hw1. cbn in Hw1. subst r1.
  destruct (escapes (Accepted p1 t1)) eqn:Hesc.
  { cbn [snd]. intros HF. inversion HF as [| ? ? Hhd _]. cbn [c_report] in Hhd. congruence. }
  rewrite Ha, Hw1. cbn [negb andb Z.eqb Z.leb Z.compare Pos.compare Pos.compare_cont].
  assert (H30 : _extract_ts host (PDict da) = 0 \/ last_trade_ts st1 < _extract_ts host (PDict da))
    by (right; rewrite Ha, Hw1; lia).
  destruct (handle_trade_accepted (envs 2%nat) da st1 H30) as (p2 & t2 & Hr2 & _ & Hw2 & _).
  destruct (handle_trade host (envs 2%nat) (PDict da) st1) as [st2 r2]. cbn [fst snd] in *.
  rewrite Ha in Hw2. cbn in Hw2. subst r2.
  intros _. destruct (escapes (Accepted p2 t2)); cbn; auto.
Qed.

(** C6. One pass of the poll loop: the batch is sorted by timestamp,
ascending, the loop hands records to [handle_trade] in that order, and a
record is accepted only when it has no timestamp (zero) or a timestamp
above the watermark it meets. For the batch of timestamps 30, 10, 20 and
the watermark 15, when no call raises, the records handed over, and
accepted, are the one of 20 and then the one of 30. *)
Theorem poll_pass_sorted_new :
  (forall envs resp st,
      let batch := candidates_of resp in
      Permutation (sorted (_extract_ts host) batch) batch /\
      StronglySorted (key_le (_extract_ts host)) (sorted (_extract_ts host) batch) /\
      sublist (map c_data (snd (poll_pass host envs resp st))) (sorted (_extract_ts host) batch) /\
      accepts_newer_or_unstamped host
        envs resp st) /\
  (forall envs da db dc w t,
      _extract_ts host (PDict da) = 30 ->
      _extract_ts host (PDict db) = 10 ->
      _extract_ts host (PDict dc) = 20 ->
      let log := snd (poll_pass host envs (PList [PDict da; PDict db; PDict dc])
                        (mkPipeline w 15 t)) in
      Forall (fun c => escapes (c_report c) = None) log ->
      map c_data log = [PDict dc; PDict da] /\
      accepted_events log = [PDict dc; PDict da]).
Proof.
  split.
  - intros envs resp st batch. split; [apply sorted_perm |].
    split; [apply sorted_sorted |].
    split; [apply feed_sorted_sublist |].
    intros l1 c l2 Hlog Hacc.
    apply (feed_sorted_accepted envs _ 0%nat st l1 c l2 Hlog Hacc).
  - intros envs da db dc w t Ha Hb Hc log HF.
    destruct (poll_pass_30_10_20 envs da db dc w t Ha Hb Hc HF) as (H1 & H2 & _).
    split; assumption.
Qed.

(** *** Calls that overlap *)

(** A call whose statements run with nothing in between is [handle_trade]. *)
Lemma run_alone_handle_trade e data st :
  run_alone host (spawn e data) st
  = (mkTask e data (Returned (snd (handle_trade host e data st))),
     fst (handle_trade host e data st)).
Proof.
  destruct data as [| | | | | |d]; try reflexivity.
  unfold run_alone, spawn, handle_trade.
  cbn [run_steps task_step t_data t_pc t_env at_pc].
  destruct (negb (_extract_ts host (PDict d) =? 0)
            && (_extract_ts host (PDict d) <=? last_trade_ts st)); [reflexivity |].
  cbn [run_steps task_step t_data t_pc t_env at_pc fst snd
       recent_trades last_trade_ts last_activity].
  destruct (negb (_extract_ts host (PDict d) =? 0));
    cbn [recent_trades last_trade_ts last_activity];
    match goal with
    | |- context [(200 <? length ?l)%nat] => destruct (200 <? length l)%nat
    end;
    cbn [recent_trades last_trade_ts last_activity fst snd];
    match goal with
    | |- context [if ?b then Some _ else None] => destruct b
    end; reflexivity.
Qed.

Lemma interleave_app s1 : forall s2 a b st,
  interleave host (s1 ++ s2) a b st
  = (let '(a1, b1, st1) :=
       interleave host s1 a b st in
     interleave host s2 a1 b1 st1).
Proof.
  induction s1 as [| [|] s1 IH]; intros s2 a b st; cbn [interleave app].
  - reflexivity.
  - destruct (task_step host b st). apply IH.
  - destruct (task_step host a st). apply IH.
Qed.

Lemma interleave_push_alone n : forall a b st,
  interleave host (repeat false n) a b st
  = (fst (run_steps host n a st), b,
     snd (run_steps host n a st)).
Proof.
  induction n as [| n IH]; intros a b st; cbn [repeat interleave run_steps].
  - reflexivity.
  - destruct (task_step host a st). apply IH.
Qed.

Lemma interleave_poll_alone n : forall a b st,
  interleave host (repeat true n) a b st
  = (a, fst (run_steps host n b st),
     snd (run_steps host n b st)).
Proof.
  induction n as [| n IH]; intros a b st; cbn [repeat interleave run_steps].
  - reflexivity.
  - destruct (task_step host b st). apply IH.
Qed.

(** C9. [handle_trade] is the one place where the shared state changes:
the state after any run of the two transports is the state after its calls
of [handle_trade]. No statement of it takes a lock; a call whose
statements run uninterrupted has the effect of [handle_trade], and when
the call of the push task runs to its end before the call of the poll task
starts, the state is that of the two calls in that order. *)
Theorem handle_trade_sole_writer_unlocked :
  (forall fs st,
      fst (run host fs st) = replay host (snd (run host fs st)) st) /\
  (forall e data st,
      run_alone host (spawn e data) st
      = (mkTask e data (Returned (snd (handle_trade host e data st))),
         fst (handle_trade host e data st))) /\
  (forall e1 d1 e2 d2 st,
      interleave host
        (repeat false 6 ++ repeat true 6) (spawn e1 d1) (spawn e2 d2) st
      = (mkTask e1 d1 (Returned (snd (handle_trade host e1 d1 st))),
         mkTask e2 d2
           (Returned (snd (handle_trade host e2 d2 (fst (handle_trade host e1 d1 st))))),
         fst (handle_trade host e2 d2 (fst (handle_trade host e1 d1 st))))).
Proof.
  split; [| split].
  - intros. apply run_replay.
  - intros. apply run_alone_handle_trade.
  - intros. rewrite interleave_app, interleave_push_alone.
    fold (run_alone host (spawn e1 d1) st).
    rewrite run_alone_handle_trade. cbn [fst snd].
    rewrite interleave_poll_alone.
    fold (run_alone host (spawn e2 d2)
            (fst (handle_trade host e1 d1 st))).
    rewrite run_alone_handle_trade. reflexivity.
Qed.
End PipelineFacts.

(** * The decision client *)

Section AnalyzeFacts.
Variable json_loads : string -> option pyval.
Variable requests_post : LLMInput -> http_reply.

(** A failure of the request is caught: the flat decision, with the
message of the exception in its reason. *)
Lemma analyze_request_failure llm_input msg :
  requests_post llm_input = HttpError msg ->
  analyze json_loads requests_post llm_input
  = Ret (fallback ("LLM error: " ++ msg)).
Proof. intros H. unfold analyze, analyze_try. rewrite H. reflexivity. Qed.

(** A body of the expected shape without any text: the flat decision. *)
Lemma analyze_no_text llm_input data cands_v cands :
  requests_post llm_input = HttpJson data ->
  py_get_default data "candidates" (PList []) = Ret cands_v ->
  py_iter cands_v = Ret cands ->
  candidates_text cands "" = Ret "" ->
  analyze json_loads requests_post llm_input
  = Ret (fallback "No text in LLM response").
Proof.
  intros H Hc Hi Ht. unfold analyze, analyze_try.
  rewrite H, Hc. cbn [mbind result_bind bind]. rewrite Hi.
  cbn [mbind result_bind bind]. rewrite Ht. reflexivity.
Qed.

(** A text in which no decision can be read: the flat decision. *)
Lemma analyze_unparseable llm_input data cands_v cands text :
  requests_post llm_input = HttpJson data ->
  py_get_default data "candidates" (PList []) = Ret cands_v ->
  py_iter cands_v = Ret cands ->
  candidates_text cands "" = Ret text ->
  text <> "" ->
  (search_braces text = None \/
   exists m, search_braces text = Some m /\
     (json_loads m = None \/
      exists obj e, json_loads m = Some obj /\ LLMDecision_kwargs obj = Raise e)) ->
  analyze json_loads requests_post llm_input
  = Ret (fallback "Could not parse LLM output").
Proof.
  intros H Hc Hi Ht Hne Hbad. unfold analyze, analyze_try.
  rewrite H, Hc. cbn [mbind result_bind bind]. rewrite Hi.
  cbn [mbind result_bind bind]. rewrite Ht. cbn [mbind result_bind bind].
  apply String.eqb_neq in Hne. rewrite Hne.
  destruct Hbad as [-> | (m & -> & [-> | (obj & e & -> & ->)])]; reflexivity.
Qed.

(** A text in which a decision can be read: its action is handed on as it
is, whatever it is. *)
Lemma analyze_keeps_action llm_input text m a c r :
  requests_post llm_input
  = HttpJson (PDict [("candidates",
       PList [PDict [("content",
                PDict [("parts", PList [PDict [("text", PStr text)]])])]])]) ->
  search_braces (text ++ String (ascii_of_nat 10) EmptyString) = Some m ->
  json_loads m = Some (PDict [("action", a); ("confidence", c); ("reason", r)]) ->
  analyze json_loads requests_post llm_input
  = Ret (mkLLMDecision a c r PNone PNone).
Proof.
  intros H Hs Hj. unfold analyze, analyze_try. rewrite H.
  cbn [py_get_default assoc String.eqb Ascii.eqb Bool.eqb mbind result_bind bind
       py_iter candidates_text parts_text py_contains py_getitem py_add_newline].
  change ("" ++ ?s)%string with s. cbn [String.append].
  assert (E : String.eqb (text ++ String (ascii_of_nat 10) EmptyString) "" = false)
    by (destruct text; reflexivity).
  rewrite E, Hs, Hj. reflexivity.
Qed.

(** What [analyze] lets through is never of the class it catches. *)
Lemma analyze_raises_uncaught llm_input e :
  analyze json_loads requests_post llm_input = Raise e ->
  (forall msg, e <> RequestException msg) /\
  exists data, requests_post llm_input = HttpJson data.
Proof.
  unfold analyze. intros H. split.
  - intros msg ->.
    destruct (analyze_try json_loads requests_post llm_input)
      as [d | ex]; [| destruct ex]; discriminate.
  - unfold analyze_try in H. destruct (requests_post llm_input) as [msg | data].
    + discriminate.
    + eauto.
Qed.

(** A body whose text is [null] makes the loop add [None] to a string: the
[TypeError] is not a [RequestException] and leaves [analyze]. *)
Lemma analyze_null_text llm_input :
  requests_post llm_input = HttpJson null_text_body ->
  analyze json_loads requests_post llm_input = Raise TypeError.
Proof. intros H. unfold analyze, analyze_try. rewrite H. reflexivity. Qed.
End AnalyzeFacts.

(** * The push transport *)

Lemma try_subscribe_subscriptions c ch :
  _subscriptions (try_subscribe c ch) = _subscriptions c.
Proof. unfold try_subscribe, sio_emit. destruct (connected c); reflexivity. Qed.

Lemma try_subscribe_connected c ch :
  connected c = true ->
  try_subscribe c ch
  = mkClient (_subscriptions c) true (emitted c ++ [subscribe_request ch]).
Proof. intros H. unfold try_subscribe, sio_emit. rewrite H. reflexivity. Qed.

Lemma connect_handler_subscriptions chs : forall c,
  _subscriptions (fold_left try_subscribe chs c) = _subscriptions c.
Proof.
  induction chs as [| ch chs IH]; intros c; simpl; [reflexivity |].
  rewrite IH. apply try_subscribe_subscriptions.
Qed.

Lemma connect_handler_emits chs : forall c,
  connected c = true ->
  fold_left try_subscribe chs c
  = mkClient (_subscriptions c) true (emitted c ++ map subscribe_request chs).
Proof.
  induction chs as [| ch chs IH]; intros c Hc; simpl.
  - rewrite app_nil_r. destruct c; simpl in *. congruence.
  - rewrite (try_subscribe_connected c ch Hc), IH by reflexivity.
    simpl. rewrite <- app_assoc. reflexivity.
Qed.

Lemma on_connected_emits c :
  on_connected c
  = mkClient (_subscriptions c) true
      (emitted c ++ map subscribe_request (elements (_subscriptions c))).
Proof. unfold on_connected, connect_handler. rewrite connect_handler_emits; reflexivity. Qed.

Lemma requested_subscribe_requests chs :
  requested (map subscribe_request chs) = chs.
Proof.
  induction chs as [| ch chs IH]; simpl; [reflexivity |]. rewrite IH. reflexivity.
Qed.

Lemma ws_step_subscriptions c ev :
  _subscriptions c ⊆ _subscriptions (ws_step c ev).
Proof.
  destruct ev as [up ch | up | | |]; simpl.
  - unfold subscribe. rewrite try_subscribe_subscriptions. simpl.
    destruct (connected c); simpl.
    + set_solver.
    + unfold ws_connect. simpl. destruct up; simpl; [| set_solver].
      rewrite on_connected_emits. simpl. set_solver.
  - unfold ws_connect. destruct (up && negb (connected c)); [| reflexivity].
    rewrite on_connected_emits. reflexivity.
  - unfold ws_disconnect. destruct (connected c); reflexivity.
  - reflexivity.
  - rewrite on_connected_emits. reflexivity.
Qed.

Lemma subscribe_adds c up ch : ch ∈ _subscriptions (subscribe up ch c).
Proof.
  unfold subscribe. rewrite try_subscribe_subscriptions. simpl.
  destruct (connected c); simpl.
  - set_solver.
  - unfold ws_connect. simpl. destruct up; simpl; [| set_solver].
    rewrite on_connected_emits. simpl. set_solver.
Qed.

Lemma ws_run_subscriptions evs : forall c,
  _subscriptions c ⊆ _subscriptions (ws_run evs c).
Proof.
  induction evs as [| ev evs IH]; intros c; simpl; [reflexivity |].
  etransitivity; [apply (ws_step_subscriptions c ev) | apply IH].
Qed.

Lemma ws_run_keeps_subscribed evs : forall c up ch,
  In (Subscribe up ch) evs -> ch ∈ _subscriptions (ws_run evs c).
Proof.
  induction evs as [| ev evs IH]; intros c up ch Hin; [destruct Hin |].
  destruct Hin as [-> | Hin]; simpl.
  - apply (ws_run_subscriptions evs). apply subscribe_adds.
  - eapply IH. exact Hin.
Qed.

Lemma count_occ_elements (s : gset string) (ch : string) :
  count_occ string_dec (elements s) ch = if decide (ch ∈ s) then 1%nat else 0%nat.
Proof.
  destruct (decide (ch ∈ s)) as [Hin | Hout].
  - apply NoDup_count_occ'; [apply NoDup_ListNoDup, NoDup_elements |].
    apply list_elem_of_In, elem_of_elements. exact Hin.
  - apply count_occ_not_In. intros Hin. apply Hout.
    apply elem_of_elements, list_elem_of_In. exact Hin.
Qed.

(** [subscribe] on a client that is down connects first: the handler asks
for the new channel, and [subscribe] then asks for it itself. *)
Example subscribe_while_down :
  requested (emitted (subscribe true "BTCUSDT@trade" ws_init))
  = ["BTCUSDT@trade"; "BTCUSDT@trade"] /\
  requested (emitted (subscribe true "BTCUSDT@trade" (ws_connect true ws_init)))
  = ["BTCUSDT@trade"].
Proof. split; vm_compute; reflexivity. Qed.

(** C8. When the socket becomes connected, the handler sends one subscribe
request for each channel of the subscription set, and nothing else: each
channel of the set is requested once, no other channel is requested. The
set holds every channel that was ever passed to [subscribe], so a
reconnection asks again for all of them. *)
Theorem reconnect_resubscribes_once (evs : list ws_event) (c0 : WallexWSClient) :
  let c := ws_run evs c0 in
  let c' := on_connected c in
  connected c' = true /\
  _subscriptions c' = _subscriptions c /\
  emitted c'
  = (emitted c ++ map subscribe_request (elements (_subscriptions c)))%list /\
  (forall ch,
      count_occ string_dec
        (requested (map subscribe_request (elements (_subscriptions c)))) ch
      = if decide (ch ∈ _subscriptions c) then 1%nat else 0%nat) /\
  (forall up ch, In (Subscribe up ch) evs -> ch ∈ _subscriptions c).
Proof.
  intros c c'. unfold c'. rewrite on_connected_emits. simpl.
  repeat split.
  - intros ch. rewrite requested_subscribe_requests. apply count_occ_elements.
  - intros up ch Hin. eapply ws_run_keeps_subscribed. exact Hin.
Qed.

(** * Sample runs *)

(** C1. 204 trades with the timestamps 1 to 204 and the price 50000 come
in by the push transport, with a decision client: all 204 are accepted, and
the decision function is invoked at the 6th, the 12th, and so on up to the
198th, and never after: not at the 204th, whose count is a multiple of 6 and
whose price is positive. The length of the window stands in for the count,
and it stays at 200. *)
Theorem trigger_missed_after_capacity :
  let log :=
    snd (run live_host (pushes 204) (start 0%float)) in
  llm live_host = true /\
  length (accepted_events log) = 204%nat /\
  (204 mod 6)%nat = 0%nat /\
  fired_at log = map (fun k => (6 * k)%nat) (seq 1 33) /\
  option_map c_report (nth_error log 203) = Some (Accepted 50000%float None).
Proof. vm_compute. repeat split. Qed.

(** C7. The decision service answers with a JSON body of which the text of
a part is [null]: [analyze] raises [TypeError]. With a decision client and
such a service, the sixth accepted trade makes [handle_trade] raise it to
its caller. *)
Theorem analyze_raises_on_null_text :
  (forall json_loads llm_input,
      analyze json_loads (fun _ => HttpJson null_text_body) llm_input
      = Raise TypeError) /\
  (let e := mkEnv 0%float (fun _ => HttpJson null_text_body)
              (fun _ => Raise (RequestException "offline")) in
   let st := fst (run live_host (pushes 5)
                    (start 0%float)) in
   escapes (snd (handle_trade live_host e
                   (trade 6 50000%float) st))
   = Some TypeError).
Proof.
  split.
  - intros. apply analyze_null_text. reflexivity.
  - vm_compute. reflexivity.
Qed.

Lemma stale_event_rejected_witness :
  handle_trade default_host offline
    (trade 15 50000%float) (mkPipeline [trade 15 49999%float] 15 0%float)
  = (mkPipeline [trade 15 49999%float] 15 0%float, Rejected).
Proof.
  apply (stale_event_rejected default_host offline
           (trade 15 50000%float) (mkPipeline [trade 15 49999%float] 15 0%float)).
  - vm_compute. discriminate.
  - vm_compute. discriminate.
Defined.



(** C6, as it is worded: a record without a timestamp is accepted though
its timestamp, zero, is not above the watermark 15. *)
Lemma poll_pass_accepts_unstamped :
  ~ accepts_only_newer default_host
      (fun _ => offline) (PList [unstamped 50000%float]) (mkPipeline [] 15 0%float).
Proof.
  intros H.
  specialize (H [] (mkCall offline (unstamped 50000%float) (Accepted 50000%float None)) []).
  specialize (H eq_refl eq_refl). vm_compute in H. discriminate.
Qed.

Lemma poll_pass_sorted_new_witness :
  let log :=
    snd (poll_pass default_host (fun _ => offline)
           (PList [trade 30 50000%float; trade 10 50000%float; trade 20 50000%float])
           (mkPipeline [] 15 0%float)) in
  map c_data log = [trade 20 50000%float; trade 30 50000%float] /\
  accepted_events log = [trade 20 50000%float; trade 30 50000%float].
Proof.
  apply (proj2 (poll_pass_sorted_new default_host)
           (fun _ => offline)
           [("t", PInt 30); ("p", PFloat 50000%float)]
           [("t", PInt 10); ("p", PFloat 50000%float)]
           [("t", PInt 20); ("p", PFloat 50000%float)]
           [] 0%float).
  - vm_compute. reflexivity.
  - vm_compute. reflexivity.
  - vm_compute. reflexivity.
  - vm_compute. repeat constructor.
Defined.

(** C9, as it is worded: the push task holds the trade of timestamp 10,
the poll task the trade of timestamp 7, the watermark is 0. Both pass the
guard before either writes the watermark; the push task writes 10, the poll
task then writes 7. Both trades are in the window and the watermark went
back from 10 to 7: no order of the two calls leaves that state. *)
Lemma overlapping_calls_not_serialized :
  ~ serialized default_host
      offline (trade 10 50000%float) offline (trade 7 50000%float) (start 0%float).
Proof.
  intros H.
  specialize (H [false; true; false; true; false; false; false; false;
                 true; true; true; true]).
  assert (E : interleave default_host
                [false; true; false; true; false; false; false; false;
                 true; true; true; true]
                (spawn offline (trade 10 50000%float))
                (spawn offline (trade 7 50000%float)) (start 0%float)
              = (mkTask offline (trade 10 50000%float)
                   (Returned (Accepted 50000%float None)),
                 mkTask offline (trade 7 50000%float)
                   (Returned (Accepted 50000%float None)),
                 mkPipeline [trade 10 50000%float; trade 7 50000%float] 7 0%float))
    by (vm_compute; reflexivity).
  rewrite E in H.
  destruct H as [H | H]; try discriminate;
    apply (f_equal last_trade_ts) in H; vm_compute in H; discriminate.
Qed.


Lemma reconnect_resubscribes_once_witness :
  "BTCUSDT@trade" ∈
    _subscriptions
      (ws_run [Connect true; Subscribe true "BTCUSDT@trade"; ConnectionLost] ws_init).
Proof.
  apply (proj2 (proj2 (proj2 (proj2
           (reconnect_resubscribes_once
              [Connect true; Subscribe true "BTCUSDT@trade"; ConnectionLost]
              ws_init)))) true "BTCUSDT@trade").
  right. left. reflexivity.
Defined.

(** * Further properties of the merge buffer *)

Lemma StronglySorted_snoc (l : list Z) (x : Z) :
  StronglySorted Z.lt l -> Forall (fun z => z < x) l ->
  StronglySorted Z.lt (l ++ [x]).
Proof.
  induction 1 as [| y l Hs IH Hall]; intros Hlt; simpl.
  - constructor; constructor.
  - inversion Hlt as [| ? ? Hy Hl]; subst.
    constructor; [apply IH; exact Hl |].
    apply Forall_app. split; [exact Hall | constructor; [exact Hy | constructor]].
Qed.



Lemma assoc_In (k : string) (d : list (string * pyval)) (v : pyval) :
  assoc k d = Some v -> In (k, v) d.
Proof.
  induction d as [| [k' v'] d IH]; simpl; [discriminate |].
  destruct (String.eqb k k') eqn:E.
  - apply String.eqb_eq in E. intros [= ->]. left. congruence.
  - intros H. right. apply IH. exact H.
Qed.

Section PipelineMore.
Variable host : Host.

(** A property of the state and of the events accepted so far that one
call of [handle_trade] keeps is kept by a pass of the poll loop, by a
message and by a run. *)
Section Invariant.
Variable R : pipeline -> list pyval -> Prop.
Hypothesis R_call : forall e data st h,
  R st h ->
  R (fst (handle_trade host e data st))
    (h ++ accepted_events [mkCall e data (snd (handle_trade host e data st))]).

Lemma feed_sorted_invariant envs trs : forall i st h,
  R st h ->
  R (fst (feed_sorted host envs i trs st))
    (h ++ accepted_events (snd (feed_sorted host envs i trs st))).
Proof.
  induction trs as [| tr rest IH]; intros i st h Inv; cbn [feed_sorted].
  - cbn. rewrite app_nil_r. exact Inv.
  - destruct (negb (_extract_ts host tr =? 0)
              && (_extract_ts host tr <=? last_trade_ts st)).
    + apply IH. exact Inv.
    + pose proof (R_call (envs i) tr st h Inv) as Hstep.
      destruct (handle_trade host (envs i) tr st) as [st1 r]. cbn [fst snd] in Hstep.
      destruct (escapes r).
      * exact Hstep.
      * specialize (IH (S i) st1 _ Hstep).
        destruct (feed_sorted host envs (S i) rest st1) as [st2 log]. cbn [fst snd] in *.
        change (mkCall (envs i) tr r :: log) with ([mkCall (envs i) tr r] ++ log)%list.
        rewrite accepted_events_app, app_assoc. exact IH.
Qed.

Lemma step_invariant f st h :
  R st h ->
  R (fst (step host f st)) (h ++ accepted_events (snd (step host f st))).
Proof.
  intros Inv. destruct f as [e channel data | envs resp]; cbn [step].
  - unfold on_msg. destruct (endswith channel "@trade").
    + pose proof (R_call e data st h Inv) as Hstep.
      destruct (handle_trade host e data st) as [st1 r]. exact Hstep.
    + cbn. rewrite app_nil_r. exact Inv.
  - apply feed_sorted_invariant. exact Inv.
Qed.

Lemma run_invariant fs : forall st h,
  R st h ->
  R (fst (run host fs st)) (h ++ accepted_events (snd (run host fs st))).
Proof.
  induction fs as [| f fs IH]; intros st h Inv; cbn [run].
  - cbn. rewrite app_nil_r. exact Inv.
  - pose proof (step_invariant f st h Inv) as Hs.
    destruct (step host f st) as [st1 log1]. cbn [fst snd] in Hs.
    specialize (IH st1 _ Hs).
    destruct (run host fs st1) as [st2 log2]. cbn [fst snd] in *.
    rewrite accepted_events_app, app_assoc. exact IH.
Qed.
End Invariant.

(** Every entry of a log is a call of [handle_trade] on some state. *)
Lemma feed_sorted_calls envs trs : forall i st c,
  In c (snd (feed_sorted host envs i trs st)) ->
  exists st', c_report c = snd (handle_trade host (c_env c) (c_data c) st').
Proof.
  induction trs as [| tr rest IH]; intros i st c; cbn [feed_sorted].
  - intros [].
  - destruct (negb (_extract_ts host tr =? 0)
              && (_extract_ts host tr <=? last_trade_ts st)).
    + apply IH.
    + destruct (handle_trade host (envs i) tr st) as [st1 r] eqn:Hh.
      assert (Hhere : exists st',
                 r = snd (handle_trade host (envs i) tr st'))
        by (exists st; rewrite Hh; reflexivity).
      destruct (escapes r).
      * cbn [snd]. intros [<- | []]. exact Hhere.
      * specialize (IH (S i) st1 c).
        destruct (feed_sorted host envs (S i) rest st1) as [st2 log]. cbn [snd] in *.
        intros [<- | Hin]; [exact Hhere | apply IH; exact Hin].
Qed.

Lemma step_calls f st c :
  In c (snd (step host f st)) ->
  exists st', c_report c = snd (handle_trade host (c_env c) (c_data c) st').
Proof.
  destruct f as [e channel data | envs resp]; cbn [step].
  - unfold on_msg. destruct (endswith channel "@trade"); [| intros []].
    destruct (handle_trade host e data st) as [st1 r] eqn:Hh. cbn [snd].
    intros [<- | []]. exists st. cbn [c_report c_env c_data]. rewrite Hh. reflexivity.
  - apply feed_sorted_calls.
Qed.

Lemma run_calls fs : forall st c,
  In c (snd (run host fs st)) ->
  exists st', c_report c = snd (handle_trade host (c_env c) (c_data c) st').
Proof.
  induction fs as [| f fs IH]; intros st c; cbn [run]; [intros [] |].
  pose proof (step_calls f st c) as Hs.
  destruct (step host f st) as [st1 log1]. cbn [snd] in Hs.
  specialize (IH st1 c). destruct (run host fs st1) as [st2 log2]. cbn [snd] in *.
  intros Hin. apply in_app_or in Hin. destruct Hin; auto.
Qed.

Lemma stamps_snoc (h : list pyval) (x : pyval) :
  stamps host (h ++ [x])
  = (stamps host h
     ++ (if _extract_ts host x =? 0 then [] else [_extract_ts host x]))%list.
Proof.
  unfold stamps. rewrite map_app, List.filter_app. cbn [map List.filter].
  destruct (_extract_ts host x =? 0); reflexivity.
Qed.

(** X1. Calls that do not overlap. In any run of the two transports, from
any state, in which each call of [handle_trade] returns before the next
one starts, the timestamps of the accepted events (those that are not
zero) are strictly increasing in the order of acceptance, each is above
the watermark the run started from and none is above the watermark it ends
with: no timestamp is accepted twice and none goes back. Nothing in the
code keeps the calls of the two threads apart; for calls that overlap the
order can fail, as [watermark_never_falls] does. *)
Theorem accepted_stamps_increase (fs : list feed) (st : pipeline) :
  let log := snd (run host fs st) in
  StronglySorted Z.lt (stamps host (accepted_events log)) /\
  Forall (fun z => last_trade_ts st < z <= last_trade_ts (fst (run host fs st)))
    (stamps host (accepted_events log)).
Proof.
  intros log.
  pose (R := fun (s : pipeline) (h : list pyval) =>
               last_trade_ts st <= last_trade_ts s /\
               StronglySorted Z.lt (stamps host h) /\
               Forall (fun z => last_trade_ts st < z <= last_trade_ts s)
                 (stamps host h)).
  assert (Hinv : R (fst (run host fs st)) ([] ++ accepted_events log)%list).
  { apply (run_invariant R); [| repeat split; try lia; constructor].
    clear. intros e data s h (Hw & Hs & Hall).
    destruct (handle_trade_cases host e data s)
      as [[H _] | [[H _] | (Ha & [d ->] & Hts)]];
      try (rewrite H; cbn; rewrite app_nil_r; repeat split; assumption).
    unfold accepted_events. cbn [List.filter c_report]. rewrite Ha.
    cbn [map c_data].
    destruct (handle_trade_accepted host e d s Hts) as (p & t & _ & _ & Hwm & _).
    unfold R. rewrite Hwm, stamps_snoc.
    destruct (_extract_ts host (PDict d) =? 0) eqn:E.
    - rewrite app_nil_r. repeat split; assumption.
    - apply Z.eqb_neq in E. destruct Hts as [Hz | Hlt]; [congruence |].
      split; [lia |]. split.
      + apply StronglySorted_snoc; [exact Hs |].
        eapply List.Forall_impl; [| exact Hall]. cbn. intros z Hz. lia.
      + apply Forall_app. split.
        * eapply List.Forall_impl; [| exact Hall]. cbn. intros z Hz. lia.
        * constructor; [lia | constructor]. }
  destruct Hinv as (_ & Hs & Hall). split; assumption.
Qed.

(** *** The poll loop, further *)








Lemma first_list_key_In keys d :
  first_list_key keys d = [] \/
  exists k, In k keys /\ In (k, PList (first_list_key keys d)) d.
Proof.
  induction keys as [| k keys IH]; cbn [first_list_key]; [left; reflexivity |].
  destruct (assoc k d) as [v |] eqn:E.
  - destruct v; try (destruct IH as [IH | (k' & Hk & Hin)];
                     [left; exact IH | right; exists k'; split; [right |]; assumption]).
    right. exists k. split; [left; reflexivity | apply assoc_In; exact E].
  - destruct IH as [IH | (k' & Hk & Hin)];
      [left; exact IH | right; exists k'; split; [right |]; assumption].
Qed.

Lemma first_list_value_In d :
  first_list_value d = [] \/ exists k, In (k, PList (first_list_value d)) d.
Proof.
  induction d as [| [k v] d IH]; cbn [first_list_value]; [left; reflexivity |].
  destruct v; try (destruct IH as [IH | (k' & Hin)];
                   [left; exact IH | right; exists k'; right; exact Hin]).
  right. exists k. left. reflexivity.
Qed.

(** X5. The candidate list of a polled response: a bare list is taken
whole; a value that is neither a list nor a dict gives no candidate; from a
dict the list is empty or is the value of one of its fields; and a field
["trades"] holding a list that is not empty is the one taken, whatever the
other fields hold. *)
Theorem candidates_of_shape :
  (forall l, candidates_of (PList l) = l) /\
  (forall resp, (forall l, resp <> PList l) -> (forall d, resp <> PDict d) ->
                candidates_of resp = []) /\
  (forall d, candidates_of (PDict d) = [] \/
             exists k, In (k, PList (candidates_of (PDict d))) d) /\
  (forall d x l, assoc "trades" d = Some (PList (x :: l)) ->
                 candidates_of (PDict d) = x :: l).
Proof.
  split; [reflexivity |]. split; [| split].
  - intros resp Hl Hd. destruct resp; try reflexivity.
    + exfalso. eapply Hl. reflexivity.
    + exfalso. eapply Hd. reflexivity.
  - intros d. cbn [candidates_of].
    destruct (first_list_key_In ["trades"; "data"; "result"; "items"] d)
      as [E | (k & _ & Hin)].
    + rewrite E. apply first_list_value_In.
    + destruct (first_list_key ["trades"; "data"; "result"; "items"] d) eqn:E.
      * apply first_list_value_In.
      * right. exists k. exact Hin.
  - intros d x l H. cbn [candidates_of first_list_key]. rewrite H. reflexivity.
Qed.


(** What a report that submitted an order says of the settings. *)
Lemma handle_trade_submitted e data st :
  submitted (snd (handle_trade host e data st)) = true ->
  dry_run (settings host) = false /\ wallex_api_key (settings host) <> "" /\
  llm host = true.
Proof.
  destruct data as [| | | | | |d]; try discriminate.
  unfold handle_trade.
  destruct (negb (_extract_ts host (PDict d) =? 0)
            && (_extract_ts host (PDict d) <=? last_trade_ts st)); [discriminate |].
  destruct (llm host) eqn:Hllm; cbn [andb]; [| discriminate].
  match goal with
  | |- context [if ?b then _ else _] => destruct b; [| discriminate]
  end.
  cbn [snd submitted invoke_decision]. unfold execution_gate.
  destruct (analyze _ _ _) as [dec | ex]; cbn [mbind result_bind bind mret result_ret];
    [| discriminate].
  destruct (decide_order _ _ dec); [| discriminate].
  destruct (dry_run (settings host)); [discriminate |].
  destruct (String.eqb (wallex_api_key (settings host)) "") eqn:Hk; [discriminate |].
  apply String.eqb_neq in Hk. intros _. repeat split; assumption.
Qed.

(** X7. In dry-run mode, or without an exchange key, no call of
[handle_trade] in any run of the two transports sends an order to the
exchange. *)
Theorem no_submission_in_dry_run (fs : list feed) (st : pipeline) :
  dry_run (settings host) = true \/ wallex_api_key (settings host) = "" ->
  Forall (fun c => submitted (c_report c) = false) (snd (run host fs st)).
Proof.
  intros Hsafe. apply List.Forall_forall. intros c Hin.
  destruct (run_calls fs st c Hin) as (st' & ->).
  destruct (submitted (snd (handle_trade host (c_env c) (c_data c) st'))) eqn:E;
    [| reflexivity].
  apply handle_trade_submitted in E. destruct E as (Hd & Hk & _).
  destruct Hsafe; congruence.
Qed.

Lemma handle_trade_needs_llm e data st :
  llm host = false ->
  fired (snd (handle_trade host e data st)) = false /\
  escapes (snd (handle_trade host e data st)) = None.
Proof.
  intros Hllm. destruct data as [| | | | | |d]; try (split; reflexivity).
  unfold handle_trade.
  destruct (negb (_extract_ts host (PDict d) =? 0)
            && (_extract_ts host (PDict d) <=? last_trade_ts st)); [split; reflexivity |].
  rewrite Hllm. split; reflexivity.
Qed.

(** X8. Without a decision client (the decision function switched off, or
no key for it) no call in any run invokes the decision function, and no
exception leaves [handle_trade]. *)
Theorem no_trigger_without_client (fs : list feed) (st : pipeline) :
  llm host = false ->
  Forall (fun c => fired (c_report c) = false /\ escapes (c_report c) = None)
    (snd (run host fs st)).
Proof.
  intros Hllm. apply List.Forall_forall. intros c Hin.
  destruct (run_calls fs st c Hin) as (st' & ->).
  apply handle_trade_needs_llm. exact Hllm.
Qed.
End PipelineMore.

(** * The turns of the poll loop *)

Section PollingFacts.
Variable host : Host.
Variable ps : PollSettings.
Variable limit : positive.

Lemma sleep_max_value : sleep_max = 9223372036.
Proof. reflexivity. Qed.

Lemma time_sleep_ok (secs : Z) :
  0 <= secs <= Z.min sleep_max (Z.pos limit) -> time_sleep limit secs = Ret secs.
Proof.
  intros H. pose proof sleep_max_value as Hm. unfold time_sleep.
  destruct (secs <? - sleep_max) eqn:E1; [apply Z.ltb_lt in E1; lia |].
  destruct (sleep_max <? secs) eqn:E2; [apply Z.ltb_lt in E2; lia |].
  destruct (secs <? 0) eqn:E3; [apply Z.ltb_lt in E3; lia |].
  destruct (Z.pos limit <? secs) eqn:E4; [apply Z.ltb_lt in E4; lia |].
  reflexivity.
Qed.

Lemma time_sleep_one : time_sleep limit 1 = Ret 1.
Proof. apply time_sleep_ok. rewrite sleep_max_value. lia. Qed.

Lemma time_sleep_raises (secs : Z) :
  (secs < - sleep_max \/ sleep_max < secs -> time_sleep limit secs = Raise OverflowError) /\
  (- sleep_max <= secs < 0 -> time_sleep limit secs = Raise ValueError) /\
  (Z.pos limit < secs <= sleep_max -> time_sleep limit secs = Raise OSError).
Proof.
  pose proof sleep_max_value as Hm. unfold time_sleep.
  destruct (secs <? - sleep_max) eqn:E1;
    [apply Z.ltb_lt in E1 | apply Z.ltb_ge in E1];
    (destruct (sleep_max <? secs) eqn:E2;
     [apply Z.ltb_lt in E2 | apply Z.ltb_ge in E2]);
    (destruct (secs <? 0) eqn:E3;
     [apply Z.ltb_lt in E3 | apply Z.ltb_ge in E3]);
    (destruct (Z.pos limit <? secs) eqn:E4;
     [apply Z.ltb_lt in E4 | apply Z.ltb_ge in E4]);
    cbn [orb]; repeat split; intros; try reflexivity; lia.
Qed.

Lemma except_poll_sleep (secs : Z) :
  except_poll ps limit (time_sleep limit secs) = time_sleep limit secs \/
  except_poll ps limit (time_sleep limit secs)
  = time_sleep limit (polling_interval_sec ps).
Proof.
  destruct (time_sleep limit secs); cbn [except_poll]; [left | right]; reflexivity.
Qed.

Lemma except_poll_ok (body : result Z) :
  0 <= polling_interval_sec ps <= Z.min sleep_max (Z.pos limit) ->
  (forall s, body = Ret s -> 0 <= s <= Z.max 1 (polling_interval_sec ps)) ->
  exists s, except_poll ps limit body = Ret s /\
            0 <= s <= Z.max 1 (polling_interval_sec ps).
Proof.
  intros H Hb. destruct body as [s | ex]; cbn [except_poll].
  - exists s. split; [reflexivity | apply Hb; reflexivity].
  - exists (polling_interval_sec ps). unfold on_poll_error.
    rewrite time_sleep_ok by exact H. split; [reflexivity | lia].
Qed.

Lemma pass_sleep_bound (log : list call) (s : Z) :
  0 <= polling_interval_sec ps <= Z.min sleep_max (Z.pos limit) ->
  pass_sleep ps limit log = Ret s -> 0 <= s <= Z.max 1 (polling_interval_sec ps).
Proof.
  intros H. unfold pass_sleep.
  assert (Hhalf : polling_interval_sec ps / 2 <= polling_interval_sec ps)
    by (apply Z.div_le_upper_bound; lia).
  destruct (new_count log =? 0)%nat.
  - rewrite time_sleep_ok by exact H. intros [= <-]. lia.
  - rewrite time_sleep_ok by (rewrite sleep_max_value in *; lia).
    intros [= <-]. lia.
Qed.

(** X9. One turn of the poll loop. With an interval that is not negative
and that the clock takes (it fits the clock type of the interpreter and is
not beyond what the platform sleeps) the turn always ends in a sleep, of at
most [max 1 interval] seconds, whatever the response and whatever
[handle_trade] raises: the thread goes on. A turn that does not fetch
(polling switched off, or the push transport connected and not idle) and a
turn whose fetch fails leave the shared state as it was. A turn whose fetch
fails, and a turn whose response holds no candidate, end as
[time.sleep(interval)] ends: with an interval that is negative or that the
clock does not take, the sleep of the [except] clause raises outside every
[try] and the thread ends, with an [OverflowError] for an interval that
does not fit the clock type, a [ValueError] for another negative one, an
[OSError] for one beyond what the platform sleeps. *)
Theorem polling_turn_survives :
  (forall ws_connected now get_trades envs st,
      0 <= polling_interval_sec ps <= Z.min sleep_max (Z.pos limit) ->
      exists s,
        tn_slept (polling_turn host ps limit ws_connected now get_trades envs st)
        = Ret s /\
        0 <= s <= Z.max 1 (polling_interval_sec ps)) /\
  (forall ws_connected now get_trades envs st,
      tn_fetched (polling_turn host ps limit ws_connected now get_trades envs st)
      = false \/
      (exists ex, get_trades = Raise ex) ->
      tn_state (polling_turn host ps limit ws_connected now get_trades envs st) = st /\
      tn_calls (polling_turn host ps limit ws_connected now get_trades envs st) = []) /\
  (forall ws_connected now get_trades envs st,
      enable_polling ps = true ->
      should_poll ps ws_connected now st = true ->
      (exists ex, get_trades = Raise ex) \/
      (exists resp, get_trades = Ret resp /\ candidates_of resp = []) ->
      tn_slept (polling_turn host ps limit ws_connected now get_trades envs st)
      = time_sleep limit (polling_interval_sec ps)) /\
  (polling_interval_sec ps < - sleep_max \/ sleep_max < polling_interval_sec ps ->
   time_sleep limit (polling_interval_sec ps) = Raise OverflowError) /\
  (- sleep_max <= polling_interval_sec ps < 0 ->
   time_sleep limit (polling_interval_sec ps) = Raise ValueError) /\
  (Z.pos limit < polling_interval_sec ps <= sleep_max ->
   time_sleep limit (polling_interval_sec ps) = Raise OSError).
Proof.
  split; [| split; [| split]].
  - intros ws_connected now get_trades envs st H. unfold polling_turn.
    assert (H1 : forall s, time_sleep limit 1 = Ret s ->
                           0 <= s <= Z.max 1 (polling_interval_sec ps))
      by (rewrite time_sleep_one; intros s [= <-]; lia).
    destruct (negb (enable_polling ps)); [apply except_poll_ok; assumption |].
    destruct (negb (should_poll ps ws_connected now st));
      [apply except_poll_ok; assumption |].
    destruct get_trades as [resp | ex];
      [| apply except_poll_ok; [assumption | discriminate]].
    destruct (poll_pass host envs resp st) as [st' log]. cbn [tn_slept].
    apply except_poll_ok; [assumption |].
    destruct (pass_error log); [discriminate |].
    intros s. apply pass_sleep_bound. exact H.
  - intros ws_connected now get_trades envs st. unfold polling_turn.
    destruct (negb (enable_polling ps)); [split; reflexivity |].
    destruct (negb (should_poll ps ws_connected now st)); [split; reflexivity |].
    destruct get_trades as [resp | ex]; [| split; reflexivity].
    destruct (poll_pass host envs resp st) as [st' log]. cbn [tn_fetched].
    intros [H | (ex & H)]; discriminate.
  - intros ws_connected now get_trades envs st Hen Hsp Hget. unfold polling_turn.
    rewrite Hen, Hsp. cbn [negb].
    destruct Hget as [(ex & ->) | (resp & -> & Hnone)].
    + reflexivity.
    + unfold poll_pass. rewrite Hnone.
      cbn [sorted feed_sorted tn_slept pass_error map List.last pass_sleep
           new_count List.filter length Nat.eqb].
      destruct (except_poll_sleep (polling_interval_sec ps)) as [E | E]; exact E.
  - apply time_sleep_raises.
Qed.
End PollingFacts.

(** * Further properties of the sizing engine *)

Lemma div_nan_r (x : float) : (x / nan)%float = nan.
Proof.
  apply Prim2SF_inj. rewrite div_spec.
  change (Prim2SF nan) with S754_nan.
  unfold SF64div, SFdiv. destruct (Prim2SF x); reflexivity.
Qed.

Lemma div_nan_l (y : float) : (nan / y)%float = nan.
Proof.
  apply Prim2SF_inj. rewrite div_spec.
  change (Prim2SF nan) with S754_nan. reflexivity.
Qed.

Lemma format_quantity_floor (qty : float) :
  (_format_quantity qty <? 0.000001)%float = true -> _format_quantity qty = 0%float.
Proof.
  unfold _format_quantity.
  destruct (float_6f (py_max qty 0) <? 0.000001)%float eqn:E; [reflexivity |].
  rewrite E. discriminate.
Qed.

Lemma format_quantity_negative (qty : float) :
  (qty <? 0)%float = true -> _format_quantity qty = 0%float.
Proof.
  intros H. unfold _format_quantity, py_max. rewrite H. reflexivity.
Qed.

(** X10. Every order that [decide_order] returns is a MARKET order for the
symbol of the engine, without a limit price, to BUY or to SELL, of the
quantity [_format_quantity (quote_amount / price)], which is neither below
0.000001 nor [<= 0]; and it is returned only for an action that is not
"flat" and a price that is not [<= 0]. *)
Theorem decide_order_returns (eng : TradingEngine) (price : float)
    (d : LLMDecision) (o : OrderRequest) :
  decide_order eng price d = Some o ->
  or_symbol o = te_symbol eng /\
  type o = "MARKET" /\
  or_price o = None /\
  (side o = "BUY" \/ side o = "SELL") /\
  quantity o = _format_quantity (quote_amount eng / price) /\
  (quantity o <=? 0)%float = false /\
  (quantity o <? 0.000001)%float = false /\
  action d <> PStr "flat" /\
  (price <=? 0)%float = false.
Proof.
  unfold decide_order.
  destruct (py_eq_str (action d) "flat") eqn:Hflat; [discriminate |].
  destruct (price <=? 0)%float eqn:Hp; [discriminate |].
  destruct (_format_quantity (quote_amount eng / price) <=? 0)%float eqn:Hq;
    [discriminate |].
  intros [= <-]. cbn [or_symbol type or_price side quantity].
  repeat split; try reflexivity; try assumption.
  - destruct (py_eq_str (action d) "long"); [left | right]; reflexivity.
  - destruct (_format_quantity (quote_amount eng / price) <? 0.000001)%float eqn:Hm;
      [| reflexivity].
    apply format_quantity_floor in Hm. rewrite Hm in Hq. discriminate.
  - apply py_eq_str_false. exact Hflat.
Qed.

(** X11. The guard on the price lets NaN through, and nothing guards the
budget: when the price is NaN, or the budget is NaN and the price not
[<= 0], every action other than "flat" gives an order whose quantity is
NaN. *)
Theorem decide_order_nan_quantity :
  (forall eng d,
      action d <> PStr "flat" ->
      decide_order eng nan d
      = Some (mkOrderRequest (te_symbol eng)
                (if py_eq_str (action d) "long" then "BUY" else "SELL")
                "MARKET" nan None)) /\
  (forall sym price d,
      action d <> PStr "flat" ->
      (price <=? 0)%float = false ->
      decide_order (mkTradingEngine sym nan) price d
      = Some (mkOrderRequest sym
                (if py_eq_str (action d) "long" then "BUY" else "SELL")
                "MARKET" nan None)).
Proof.
  split.
  - intros eng d Hflat. apply py_eq_str_false in Hflat.
    unfold decide_order. rewrite Hflat, div_nan_r. reflexivity.
  - intros sym price d Hflat Hp. apply py_eq_str_false in Hflat.
    unfold decide_order. rewrite Hflat, Hp. cbn [quote_amount te_symbol].
    rewrite div_nan_l. reflexivity.
Qed.

(** X12. A raw quantity below zero (a negative budget at a positive price)
is raised to zero before it is formatted, and no order is made. *)
Theorem decide_order_negative_quantity (eng : TradingEngine) (price : float)
    (d : LLMDecision) :
  (quote_amount eng / price <? 0)%float = true ->
  _format_quantity (quote_amount eng / price) = 0%float /\
  decide_order eng price d = None.
Proof.
  intros H. pose proof (format_quantity_negative _ H) as Hq.
  split; [exact Hq |].
  unfold decide_order. rewrite Hq.
  destruct (py_eq_str (action d) "flat"); [reflexivity |].
  destruct (price <=? 0)%float; reflexivity.
Qed.

(** * Further properties of the decision client *)

Lemma append_assoc (a b c : string) : ((a ++ b) ++ c = a ++ (b ++ c))%string.
Proof.
  induction a as [| x a IH]; [reflexivity |].
  change (String x ((a ++ b) ++ c) = String x (a ++ (b ++ c)))%string.
  f_equal. exact IH.
Qed.

Lemma append_empty_r (a : string) : (a ++ "")%string = a.
Proof.
  induction a as [| x a IH]; [reflexivity |].
  change (String x (a ++ "") = String x a)%string. f_equal. exact IH.
Qed.

Lemma join_app (l1 l2 : list string) : join (l1 ++ l2) = (join l1 ++ join l2)%string.
Proof.
  induction l1 as [| x l1 IH]; [reflexivity |].
  unfold join in *. cbn [app fold_right]. rewrite IH, append_assoc. reflexivity.
Qed.

Lemma parts_text_plain (ps : list pyval) : forall text,
  Forall plain_part ps ->
  parts_text ps text = Ret (text ++ join (map part_text ps))%string.
Proof.
  induction ps as [| p ps IH]; intros text Hps; cbn [parts_text map].
  - cbn. rewrite append_empty_r. reflexivity.
  - inversion Hps as [| ? ? (d & -> & Hd) Hrest]; subst.
    cbn [py_contains part_text mbind result_bind bind].
    destruct Hd as [Hnone | (t & Hsome)].
    + rewrite Hnone. rewrite (IH text Hrest). reflexivity.
    + rewrite Hsome. cbn [py_getitem]. rewrite Hsome.
      cbn [py_add_newline mbind result_bind bind].
      rewrite (IH _ Hrest). unfold join. cbn [fold_right].
      rewrite append_assoc. reflexivity.
Qed.

Lemma candidates_text_cons (cand : pyval) (cs ps : list pyval) (text : string) :
  candidate_parts cand = Some ps ->
  candidates_text (cand :: cs) text
  = bind (parts_text ps text) (fun text' => candidates_text cs text').
Proof.
  intros H. destruct cand as [| | | | | |d]; try discriminate.
  cbn [candidate_parts] in H. cbn [candidates_text py_get_default].
  destruct (assoc "content" d) as [content |].
  - destruct content as [| | | | | |c]; try discriminate.
    cbn [mbind result_bind bind py_get_default].
    destruct (assoc "parts" c) as [parts |].
    + destruct parts as [| | | | |l |]; try discriminate.
      injection H as <-. reflexivity.
    + injection H as <-. reflexivity.
  - injection H as <-. reflexivity.
Qed.

Lemma candidates_text_plain (cands : list pyval) (pss : list (list pyval)) :
  Forall2 plain_candidate cands pss ->
  forall text,
    candidates_text cands text
    = Ret (text ++ join (map part_text (concat pss)))%string.
Proof.
  induction 1 as [| cand ps cands pss [Hparts Hplain] _ IH]; intros text.
  - cbn. rewrite append_empty_r. reflexivity.
  - rewrite (candidates_text_cons cand cands ps text Hparts).
    rewrite (parts_text_plain ps text Hplain). cbn [bind].
    rewrite IH. cbn [concat]. rewrite map_app, join_app, append_assoc.
    reflexivity.
Qed.

(** X13. For a response of the expected shape the text that [analyze]
reads is the texts of the parts in their order, candidate after candidate,
each followed by a newline; the parts without a text add nothing. The
expected shape: the body is a dict whose ["candidates"] is a list of dicts;
the ["content"] of a candidate, when it has one, is a dict whose ["parts"],
when it has them, is a list of dicts, each without a ["text"] or with a
string under it. Whatever else the body, a candidate or its content holds
is not looked at. A body without ["candidates"] gives the empty text. *)
Theorem candidates_text_joins (body : list (string * pyval))
    (cands : list pyval) (pss : list (list pyval)) :
  Forall2 plain_candidate cands pss ->
  (forall text,
      candidates_text cands text
      = Ret (text ++ join (map part_text (concat pss)))%string) /\
  (assoc "candidates" body = Some (PList cands) ->
   read_text (PDict body) = Ret (join (map part_text (concat pss)))) /\
  (assoc "candidates" body = None -> read_text (PDict body) = Ret "").
Proof.
  intros Hall. split; [| split].
  - apply candidates_text_plain. exact Hall.
  - intros Hc. unfold read_text. cbn [py_get_default]. rewrite Hc.
    cbn [mbind result_bind bind py_iter].
    apply (candidates_text_plain cands pss Hall "").
  - intros Hc. unfold read_text. cbn [py_get_default]. rewrite Hc. reflexivity.
Qed.

Lemma kwargs_fields (obj : pyval) (dec : LLMDecision) :
  LLMDecision_kwargs obj = Ret dec ->
  exists d, obj = PDict d /\
    Forall (fun kv => In (fst kv) decision_fields) d /\
    assoc "action" d = Some (action dec) /\
    assoc "confidence" d = Some (confidence dec) /\
    assoc "reason" d = Some (reason dec) /\
    stop_loss dec = dict_get "stop_loss" d /\
    take_profit dec = dict_get "take_profit" d.
Proof.
  destruct obj as [| | | | | |d]; try discriminate. cbn [LLMDecision_kwargs].
  destruct (forallb _ d) eqn:Hall; [| discriminate].
  destruct (assoc "action" d) as [a |] eqn:Ha; [| discriminate].
  destruct (assoc "confidence" d) as [c |] eqn:Hc; [| discriminate].
  destruct (assoc "reason" d) as [r |] eqn:Hr; [| discriminate].
  intros [= <-]. exists d. split; [reflexivity |]. split.
  - apply List.Forall_forall. intros kv Hin.
    rewrite forallb_forall in Hall. specialize (Hall kv Hin).
    apply existsb_exists in Hall. destruct Hall as (f & Hf & E).
    apply String.eqb_eq in E. rewrite E. exact Hf.
  - cbn [action confidence reason stop_loss take_profit].
    repeat split; assumption.
Qed.

(** Nothing that reads the body raises an exception of the [requests]
family. *)
Lemma py_get_default_error v k dflt ex :
  py_get_default v k dflt = Raise ex -> local_error ex.
Proof. destruct v; cbn; intros [= <-] || discriminate; left; reflexivity. Qed.

Lemma py_iter_error v ex : py_iter v = Raise ex -> local_error ex.
Proof. destruct v; cbn; intros [= <-] || discriminate; right; left; reflexivity. Qed.

Lemma parts_text_error ps : forall text ex,
  parts_text ps text = Raise ex -> local_error ex.
Proof.
  induction ps as [| p ps IH]; intros text ex; cbn [parts_text]; [discriminate |].
  destruct (py_contains "text" p) as [[|] | ex1] eqn:Hc; cbn [mbind result_bind bind].
  - destruct (py_getitem p "text") as [v | ex2] eqn:Hg; cbn [mbind result_bind bind].
    + destruct (py_add_newline v) as [s | ex3] eqn:Ha; cbn [mbind result_bind bind].
      * apply IH.
      * intros [= <-]. destruct v; cbn in Ha; try discriminate;
          injection Ha as <-; right; left; reflexivity.
    + intros [= <-]. destruct p; cbn in Hg; try (injection Hg as <-; right; left; reflexivity).
      destruct (assoc "text" d); [discriminate |].
      injection Hg as <-. right. right. reflexivity.
  - apply IH.
  - intros [= <-]. destruct p; cbn in Hc; try discriminate;
      injection Hc as <-; right; left; reflexivity.
Qed.

Lemma candidates_text_error cands : forall text ex,
  candidates_text cands text = Raise ex -> local_error ex.
Proof.
  induction cands as [| cand cands IH]; intros text ex; cbn [candidates_text];
    [discriminate |].
  destruct (py_get_default cand "content" (PDict [])) as [content | ex1] eqn:H1;
    cbn [mbind result_bind bind];
    [| intros [= <-]; eapply py_get_default_error; exact H1].
  destruct (py_get_default content "parts" (PList [])) as [parts | ex2] eqn:H2;
    cbn [mbind result_bind bind];
    [| intros [= <-]; eapply py_get_default_error; exact H2].
  destruct (py_iter parts) as [ps | ex3] eqn:H3; cbn [mbind result_bind bind];
    [| intros [= <-]; eapply py_iter_error; exact H3].
  destruct (parts_text ps text) as [text' | ex4] eqn:H4; cbn [mbind result_bind bind];
    [| intros [= <-]; eapply parts_text_error; exact H4].
  apply IH.
Qed.

(** X14. Every decision that [analyze] returns is the flat fallback (action
"flat", confidence 0.0, with one of its three reasons) or was built from a
JSON object read in the text of the reply. A failed request gives the
fallback with the message of its exception. A reply whose text is empty
gives the fallback "No text in LLM response". A reply with a text in which
no decision can be read (no stretch from an opening to a later closing
brace, or one that [json.loads] rejects, or an object that [LLMDecision]
does not take) gives the fallback "Could not parse LLM output". Otherwise
the decision holds, as they are, the values of the object that [json.loads]
read between the first opening and the last closing brace of the text of
the reply: an object whose keys are all among the five fields of
[LLMDecision]. *)
Theorem analyze_returns (json_loads : string -> option pyval)
    (requests_post : LLMInput -> http_reply) (llm_input : LLMInput)
    (dec : LLMDecision) :
  analyze json_loads requests_post llm_input = Ret dec ->
  (exists msg, requests_post llm_input = HttpError msg /\
               dec = fallback ("LLM error: " ++ msg)) \/
  (exists data text,
      requests_post llm_input = HttpJson data /\
      read_text data = Ret text /\
      ((text = "" /\ dec = fallback "No text in LLM response") \/
       (text <> "" /\ dec = fallback "Could not parse LLM output" /\
        (search_braces text = None \/
         exists m, search_braces text = Some m /\
           (json_loads m = None \/
            exists obj ex, json_loads m = Some obj /\
                           LLMDecision_kwargs obj = Raise ex))) \/
       (text <> "" /\
        exists m d,
          search_braces text = Some m /\
          json_loads m = Some (PDict d) /\
          Forall (fun kv => In (fst kv) decision_fields) d /\
          assoc "action" d = Some (action dec) /\
          assoc "confidence" d = Some (confidence dec) /\
          assoc "reason" d = Some (reason dec) /\
          stop_loss dec = dict_get "stop_loss" d /\
          take_profit dec = dict_get "take_profit" d))).
Proof.
  unfold analyze, analyze_try.
  destruct (requests_post llm_input) as [msg | data].
  { intros [= <-]. left. exists msg. split; reflexivity. }
  intros H. right.
  assert (Hread : exists text,
             read_text data = Ret text /\
             (if String.eqb text "" then Ret (fallback "No text in LLM response")
              else
                match search_braces text with
                | Some m =>
                    match
                      match json_loads m with
                      | Some obj => LLMDecision_kwargs obj
                      | None => Raise ValueError
                      end
                    with
                    | Ret d => Ret d
                    | Raise _ => Ret (fallback "Could not parse LLM output")
                    end
                | None => Ret (fallback "Could not parse LLM output")
                end) = Ret dec).
  { unfold read_text.
    destruct (py_get_default data "candidates" (PList [])) as [cands_v | ex] eqn:H1;
      cbn [mbind result_bind bind] in *.
    2: { apply py_get_default_error in H1.
         destruct H1 as [-> | [-> | ->]]; discriminate. }
    destruct (py_iter cands_v) as [cands | ex] eqn:H2; cbn [mbind result_bind bind] in *.
    2: { apply py_iter_error in H2. destruct H2 as [-> | [-> | ->]]; discriminate. }
    destruct (candidates_text cands "") as [text | ex] eqn:H3;
      cbn [mbind result_bind bind] in *.
    2: { apply candidates_text_error in H3.
         destruct H3 as [-> | [-> | ->]]; discriminate. }
    exists text. split; [reflexivity |].
    destruct (String.eqb text ""); [exact H |].
    destruct (search_braces text) as [m |]; [| exact H].
    destruct (json_loads m) as [obj |]; [| exact H].
    destruct (LLMDecision_kwargs obj); exact H. }
  clear H. destruct Hread as (text & Hread & H).
  exists data, text. split; [reflexivity |]. split; [exact Hread |].
  destruct (String.eqb text "") eqn:He.
  { apply String.eqb_eq in He. injection H as <-. left. split; [exact He | reflexivity]. }
  apply String.eqb_neq in He. right.
  destruct (search_braces text) as [m |] eqn:Hs.
  2: { injection H as <-. left. split; [exact He |]. split; [reflexivity |].
       left. reflexivity. }
  destruct (json_loads m) as [obj |] eqn:Hj.
  2: { injection H as <-. left. split; [exact He |]. split; [reflexivity |].
       right. exists m. split; [reflexivity |]. left. exact Hj. }
  destruct (LLMDecision_kwargs obj) as [dec' | ex] eqn:Hk.
  2: { injection H as <-. left. split; [exact He |]. split; [reflexivity |].
       right. exists m. split; [reflexivity |]. right. exists obj, ex.
       split; [exact Hj | exact Hk]. }
  injection H as <-. right. split; [exact He |].
  destruct (kwargs_fields obj dec' Hk) as (d & -> & Hall & Ha & Hc & Hr & Hsl & Htp).
  exists m, d. repeat split; assumption.
Qed.

Lemma read_text_error data ex : read_text data = Raise ex -> local_error ex.
Proof.
  unfold read_text.
  destruct (py_get_default data "candidates" (PList [])) as [cands_v | ex1] eqn:H1;
    cbn [mbind result_bind bind];
    [| intros [= <-]; eapply py_get_default_error; exact H1].
  destruct (py_iter cands_v) as [cands | ex2] eqn:H2; cbn [mbind result_bind bind];
    [| intros [= <-]; eapply py_iter_error; exact H2].
  apply candidates_text_error.
Qed.

(** X15. [analyze] raises exactly when the service answered with a JSON
body and reading the text out of that body raises, and it raises that same
exception: an [AttributeError], a [TypeError] or a [KeyError] of a value
of an unexpected shape. A failed request never makes it raise, nor does a
text in which no decision can be read. *)
Theorem analyze_raises_iff (json_loads : string -> option pyval)
    (requests_post : LLMInput -> http_reply) (llm_input : LLMInput) (ex : exn) :
  (analyze json_loads requests_post llm_input = Raise ex <->
   exists data, requests_post llm_input = HttpJson data /\
                read_text data = Raise ex) /\
  (analyze json_loads requests_post llm_input = Raise ex -> local_error ex).
Proof.
  assert (Hiff : analyze json_loads requests_post llm_input = Raise ex <->
                 exists data, requests_post llm_input = HttpJson data /\
                              read_text data = Raise ex).
  { assert (Hdata : forall data,
              requests_post llm_input = HttpJson data ->
              (analyze json_loads requests_post llm_input = Raise ex <->
               read_text data = Raise ex)).
    { intros data Hpost. unfold analyze, analyze_try, read_text. rewrite Hpost.
      destruct (py_get_default data "candidates" (PList [])) as [cands_v | ex1] eqn:H1;
        cbn [mbind result_bind bind].
      2: { apply py_get_default_error in H1.
           destruct H1 as [-> | [-> | ->]]; split; intros [= <-]; reflexivity. }
      destruct (py_iter cands_v) as [cands | ex2] eqn:H2; cbn [mbind result_bind bind].
      2: { apply py_iter_error in H2. destruct H2 as [-> | [-> | ->]]; split; intros [= <-]; reflexivity. }
      destruct (candidates_text cands "") as [text | ex3] eqn:H3;
        cbn [mbind result_bind bind].
      2: { apply candidates_text_error in H3.
           destruct H3 as [-> | [-> | ->]]; split; intros [= <-]; reflexivity. }
      split; [| discriminate].
      destruct (String.eqb text ""); [discriminate |].
      destruct (search_braces text) as [m |]; [| discriminate].
      destruct (json_loads m) as [obj |]; [| discriminate].
      destruct (LLMDecision_kwargs obj); discriminate. }
    destruct (requests_post llm_input) as [msg | data] eqn:Hpost.
    - split; [| intros (data & H & _); discriminate].
      unfold analyze, analyze_try. rewrite Hpost. discriminate.
    - rewrite (Hdata data eq_refl). split.
      + intros H. exists data. split; [reflexivity | exact H].
      + intros (data' & [= <-] & H). exact H. }
  split; [exact Hiff |].
  intros H. apply Hiff in H. destruct H as (data & _ & H).
  eapply read_text_error. exact H.
Qed.

Lemma rindex_char_get (c : ascii) (s : string) : forall j,
  rindex_char c s = Some j ->
  get j s = Some c /\ forall p, (j < p)%nat -> get p s <> Some c.
Proof.
  induction s as [| a s IH]; intros j; cbn [rindex_char]; [discriminate |].
  destruct (rindex_char c s) as [i |] eqn:E.
  - intros [= <-]. destruct (IH i eq_refl) as [Hg Hlast]. split; [exact Hg |].
    intros p Hp. destruct p as [| p]; [lia |]. cbn [get]. apply Hlast. lia.
  - destruct (Ascii.eqb a c) eqn:Ea; [| discriminate].
    apply Ascii.eqb_eq in Ea. intros [= <-]. split; [cbn; congruence |].
    intros p Hp. destruct p as [| p]; [lia |]. cbn [get].
    clear -E. revert p. induction s as [| b s IHs]; intros p; [destruct p; discriminate |].
    cbn [rindex_char] in E.
    destruct (rindex_char c s) eqn:E'; [discriminate |].
    destruct (Ascii.eqb b c) eqn:Eb; [discriminate |].
    destruct p as [| p]; cbn [get].
    + intros [= ->]. rewrite Ascii.eqb_refl in Eb. discriminate.
    + apply IHs. reflexivity.
Qed.

Lemma substring_one_get (s : string) : forall p c,
  substring p 1 s = String c EmptyString -> get p s = Some c.
Proof.
  induction s as [| a s IH]; intros p c.
  - destruct p; discriminate.
  - destruct p as [| p]; cbn [substring get].
    + intros [= -> _]. reflexivity.
    + apply IH.
Qed.

Lemma get_substring_one (s : string) : forall p c,
  get p s = Some c -> substring p 1 s = String c EmptyString.
Proof.
  induction s as [| a s IH]; intros p c.
  - destruct p; discriminate.
  - destruct p as [| p]; cbn [substring get].
    + intros [= ->]. destruct s; reflexivity.
    + apply IH.
Qed.

(** X16. What [analyze] hands to [json.loads] begins with an opening brace
and ends with a closing brace: it is the stretch of the text from its
first opening brace to its last closing brace. *)
Theorem search_braces_shape (text m : string) :
  search_braces text = Some m ->
  exists i j,
    (i < j)%nat /\
    m = substring i (j - i + 1) text /\
    get 0 m = Some "{"%char /\
    get (j - i) m = Some "}"%char /\
    get (S (j - i)) m = None /\
    (forall p, (p < i)%nat -> get p text <> Some "{"%char) /\
    (forall p, (j < p)%nat -> get p text <> Some "}"%char).
Proof.
  unfold search_braces.
  destruct (index 0 "{" text) as [i |] eqn:Hi; [| discriminate].
  destruct (rindex_char "}" text) as [j |] eqn:Hj; [| discriminate].
  destruct (i <? j)%nat eqn:Hij; [| discriminate].
  apply Nat.ltb_lt in Hij. intros [= <-].
  destruct (rindex_char_get _ _ _ Hj) as [Hgj Hlast].
  pose proof (index_correct1 _ _ _ _ Hi) as Hgi. cbn [String.length] in Hgi.
  apply substring_one_get in Hgi.
  exists i, j. split; [exact Hij |]. split; [reflexivity |].
  split; [rewrite substring_correct1 by lia; exact Hgi |].
  split; [rewrite substring_correct1 by lia;
          replace (j - i + i)%nat with j by lia; exact Hgj |].
  split; [apply substring_correct2; lia |].
  split; [| exact Hlast].
  intros p Hp Hg. apply get_substring_one in Hg.
  eapply (index_correct2 _ _ _ _ Hi p); [lia | exact Hp | exact Hg].
Qed.

(** * Further properties of the push transport *)

(** X17. The handler of a socket event hands the callback a payload that
is never [None]. Two arguments are the channel and the payload as they
come. A single dict that names a channel and holds a ["data"] field is
read as the two-argument message of that channel and that data. No
argument, or three and more, give the channel [""] and the payload [{}];
a single payload that is not a dict is passed under the channel [""]. *)
Theorem normalize_message_cases :
  (forall args, snd (normalize_message args) <> PNone) /\
  (forall a b,
      normalize_message [a; b]
      = (a, match b with PNone => PDict [] | _ => b end)) /\
  (forall payload data,
      truthy (dict_get "channel" payload) = true ->
      assoc "data" payload = Some data ->
      normalize_message [PDict payload]
      = normalize_message [dict_get "channel" payload; data]) /\
  (forall args, length args <> 1%nat -> length args <> 2%nat ->
                normalize_message args = (PStr "", PDict [])) /\
  (forall x, (forall d, x <> PDict d) -> x <> PNone ->
             normalize_message [x] = (PStr "", x)).
Proof.
  split; [| split; [| split; [| split]]].
  - intros args. unfold normalize_message.
    match goal with |- context [let '(_, _) := ?m in _] => destruct m as [channel data] end.
    cbn [snd]. destruct data; discriminate.
  - intros a b. destruct a; reflexivity.
  - intros payload data Hc Hd.
    transitivity (dict_get "channel" payload,
                  match data with PNone => PDict [] | _ => data end).
    + unfold normalize_message. rewrite Hd. unfold py_or. rewrite Hc.
      rewrite Hc. reflexivity.
    + destruct (dict_get "channel" payload); reflexivity.
  - intros args H1 H2. destruct args as [| a [| b [| c args]]].
    + reflexivity.
    + cbn in H1. congruence.
    + cbn in H2. congruence.
    + destruct a; reflexivity.
  - intros x Hd Hn. destruct x; try reflexivity; [congruence |].
    exfalso. eapply Hd. reflexivity.
Qed.

Section DeliveryFacts.
Variable host : Host.

(** What the handler hands to the callback for a single dict. *)
Lemma normalize_single_dict (p : list (string * pyval)) :
  normalize_message [PDict p]
  = (py_or (py_or (dict_get "channel" p) (dict_get "topic" p)) (PStr ""),
     match assoc "data" p with
     | Some PNone => PDict []
     | Some v => v
     | None => PDict p
     end).
Proof.
  unfold normalize_message. destruct (assoc "data" p) as [v |]; [| reflexivity].
  destruct v; reflexivity.
Qed.

(** [_on_message], by the channel and the payload that the handler made of
    the event. *)
Lemma on_message_by_channel (e : env) (st : pipeline) (args : list pyval) :
  _on_message host e args st
  = match fst (normalize_message args) with
    | PStr s =>
        if endswith s "@trade"
        then
          let data := snd (normalize_message args) in
          (fst (handle_trade host e data st),
           mkDelivery [mkCall e data (snd (handle_trade host e data st))]
             (escapes (snd (handle_trade host e data st))))
        else (st, mkDelivery [] None)
    | _ => (st, mkDelivery [] (Some AttributeError))
    end.
Proof.
  unfold _on_message. destruct (normalize_message args) as [channel data].
  cbn [fst snd]. destruct channel; try reflexivity.
  unfold on_msg_any, on_msg. destruct (endswith s "@trade"); [| reflexivity].
  destruct (handle_trade host e data st) as [st' r]. reflexivity.
Qed.

(** X18. The way of a socket event to the shared state, whatever the form
of the event: two arguments, a single dict that names its channel under
["channel"] or ["topic"], or anything else. Let the channel and the
payload be what the handler made of the event. When the channel is a
string that does not end in ["@trade"], no call of [handle_trade] is made
and the state stays as it was. When the channel is not a string, the
[AttributeError] of [channel.endswith] ends in the handler, and the state
stays as it was. When the channel is a string that ends in ["@trade"], the
event is one call of [handle_trade] on the payload. An event that names no
channel (no argument, three and more, a single payload that is not a dict,
a dict without a channel and without a topic) is of the first kind. For a
single dict the channel is its ["channel"], or else its ["topic"], and the
payload its ["data"] when it has that field, the dict itself when it has
not. *)
Theorem on_message_frame (e : env) (st : pipeline) :
  (forall args s data,
      normalize_message args = (PStr s, data) ->
      endswith s "@trade" = false ->
      _on_message host e args st = (st, mkDelivery [] None)) /\
  (forall args channel data,
      normalize_message args = (channel, data) ->
      (forall s, channel <> PStr s) ->
      _on_message host e args st = (st, mkDelivery [] (Some AttributeError))) /\
  (forall args s data,
      normalize_message args = (PStr s, data) ->
      endswith s "@trade" = true ->
      _on_message host e args st
      = (fst (handle_trade host e data st),
         mkDelivery [mkCall e data (snd (handle_trade host e data st))]
           (escapes (snd (handle_trade host e data st))))) /\
  (forall args,
      length args <> 2%nat ->
      (forall p, args = [PDict p] ->
                 truthy (dict_get "channel" p) = false /\
                 truthy (dict_get "topic" p) = false) ->
      _on_message host e args st = (st, mkDelivery [] None)) /\
  (forall p s,
      py_or (py_or (dict_get "channel" p) (dict_get "topic" p)) (PStr "") = PStr s ->
      let data :=
        match assoc "data" p with
        | Some PNone => PDict []
        | Some v => v
        | None => PDict p
        end in
      _on_message host e [PDict p] st
      = if endswith s "@trade"
        then (fst (handle_trade host e data st),
              mkDelivery [mkCall e data (snd (handle_trade host e data st))]
                (escapes (snd (handle_trade host e data st))))
        else (st, mkDelivery [] None)) /\
  (forall p,
      (forall s,
          py_or (py_or (dict_get "channel" p) (dict_get "topic" p)) (PStr "")
          <> PStr s) ->
      _on_message host e [PDict p] st = (st, mkDelivery [] (Some AttributeError))).
Proof.
  split; [| split; [| split; [| split; [| split]]]].
  - intros args s data Hn Hs. rewrite on_message_by_channel, Hn. cbn [fst].
    rewrite Hs. reflexivity.
  - intros args channel data Hn Hns. rewrite on_message_by_channel, Hn. cbn [fst].
    destruct channel; try reflexivity. exfalso. eapply Hns. reflexivity.
  - intros args s data Hn Hs. rewrite on_message_by_channel, Hn. cbn [fst snd].
    rewrite Hs. reflexivity.
  - intros args H2 Hp.
    assert (Hch : fst (normalize_message args) = PStr "").
    { destruct args as [| a [| b [| c args]]].
      - reflexivity.
      - destruct a; try reflexivity.
        destruct (Hp d eq_refl) as [Hc Ht].
        rewrite normalize_single_dict. unfold py_or. rewrite Hc, Ht. reflexivity.
      - cbn in H2. congruence.
      - destruct a; reflexivity. }
    rewrite on_message_by_channel, Hch. reflexivity.
  - intros p s Hch data. rewrite on_message_by_channel, normalize_single_dict.
    cbn [fst snd]. rewrite Hch. reflexivity.
  - intros p Hns. rewrite on_message_by_channel, normalize_single_dict. cbn [fst].
    destruct (py_or (py_or (dict_get "channel" p) (dict_get "topic" p)) (PStr ""));
      try reflexivity.
    exfalso. eapply Hns. reflexivity.
Qed.
End DeliveryFacts.


(** * Further properties of the subscription bookkeeping *)

Lemma requests_are_subscribed_weaken c c' extra :
  requests_are_subscribed c ->
  _subscriptions c ⊆ _subscriptions c' ->
  emitted c' = (emitted c ++ map subscribe_request extra)%list ->
  (forall ch, In ch extra -> ch ∈ _subscriptions c') ->
  requests_are_subscribed c'.
Proof.
  unfold requests_are_subscribed. intros Hc Hsub He Hextra. rewrite He.
  apply Forall_app. split.
  - eapply List.Forall_impl; [| exact Hc]. intros r (ch & -> & Hin).
    exists ch. split; [reflexivity | set_solver].
  - apply Forall_forall. intros r Hr. apply list_elem_of_In in Hr.
    apply in_map_iff in Hr. destruct Hr as (ch & <- & Hin).
    exists ch. split; [reflexivity | auto].
Qed.

Lemma subscribe_emits up ch c :
  emitted (subscribe up ch c)
  = (emitted c ++
     map subscribe_request
       (if connected c then [ch]
        else if up then elements ({[ch]} ∪ _subscriptions c) ++ [ch]
        else []))%list.
Proof.
  unfold subscribe. cbn [connected]. destruct (connected c) eqn:Hc.
  - rewrite try_subscribe_connected by reflexivity. reflexivity.
  - unfold ws_connect. cbn [connected]. destruct up; cbn [andb negb].
    + rewrite on_connected_emits. rewrite try_subscribe_connected by reflexivity.
      cbn [emitted _subscriptions]. rewrite map_app, app_assoc. reflexivity.
    + unfold try_subscribe, sio_emit. cbn [connected].
      cbn [fst emitted map]. rewrite app_nil_r. reflexivity.
Qed.

Lemma ws_step_emits c ev :
  exists extra,
    emitted (ws_step c ev) = (emitted c ++ map subscribe_request extra)%list /\
    (forall ch, In ch extra -> ch ∈ _subscriptions (ws_step c ev)) /\
    (connected (ws_step c ev) = false -> extra = []).
Proof.
  destruct ev as [up ch | up | | |]; cbn [ws_step].
  - eexists. split; [apply subscribe_emits |]. split.
    + intros ch' Hin.
      assert (Hch : ch ∈ _subscriptions (subscribe up ch c)) by apply subscribe_adds.
      assert (Hsub : {[ch]} ∪ _subscriptions c ⊆ _subscriptions (subscribe up ch c)).
      { pose proof (ws_step_subscriptions c (Subscribe up ch)) as H.
        cbn [ws_step] in H.
        apply union_subseteq. split; [apply singleton_subseteq_l; exact Hch | exact H]. }
      destruct (connected c).
      * destruct Hin as [<- | []]. exact Hch.
      * destruct up; [| destruct Hin].
        apply in_app_or in Hin. destruct Hin as [Hin | [<- | []]]; [| exact Hch].
        apply Hsub. apply elem_of_elements. apply list_elem_of_In. exact Hin.
    + unfold subscribe. cbn [connected]. destruct (connected c) eqn:Hc.
      * rewrite try_subscribe_connected by reflexivity. discriminate.
      * unfold ws_connect. cbn [connected].
        destruct up; cbn [andb negb]; [| reflexivity].
        rewrite on_connected_emits, try_subscribe_connected by reflexivity.
        discriminate.
  - unfold ws_connect. destruct (up && negb (connected c)).
    + exists (elements (_subscriptions c)). rewrite on_connected_emits.
      cbn [emitted _subscriptions connected]. split; [reflexivity |].
      split; [| discriminate].
      intros ch Hin. apply elem_of_elements. apply list_elem_of_In. exact Hin.
    + exists []. cbn [map]. rewrite app_nil_r. split; [reflexivity |].
      split; [intros ch [] | reflexivity].
  - unfold ws_disconnect, on_disconnected. exists []. cbn [map].
    destruct (connected c); cbn [emitted]; rewrite app_nil_r;
      (split; [reflexivity | split; [intros ch [] | reflexivity]]).
  - unfold on_disconnected. exists []. cbn [map emitted]. rewrite app_nil_r.
    split; [reflexivity | split; [intros ch [] | reflexivity]].
  - exists (elements (_subscriptions c)). rewrite on_connected_emits.
    cbn [emitted _subscriptions connected]. split; [reflexivity |].
    split; [| discriminate].
    intros ch Hin. apply elem_of_elements. apply list_elem_of_In. exact Hin.
Qed.

Lemma ws_step_requests_are_subscribed c ev :
  requests_are_subscribed c -> requests_are_subscribed (ws_step c ev).
Proof.
  intros Hc. destruct (ws_step_emits c ev) as (extra & He & Hin & _).
  eapply requests_are_subscribed_weaken; eauto using ws_step_subscriptions.
Qed.

(** X19. Whatever happens to a client after its construction, every
request that went out on the socket is a subscribe request for a channel
of the subscription set: nothing else is ever sent, and no channel is
asked for that [subscribe] was not called with. A step that leaves the
client disconnected sent nothing. *)
Theorem emitted_only_subscriptions (evs : list ws_event) :
  requests_are_subscribed (ws_run evs ws_init) /\
  (forall c ev, connected (ws_step c ev) = false ->
                emitted (ws_step c ev) = emitted c).
Proof.
  split.
  - assert (H : forall c, requests_are_subscribed c ->
                          requests_are_subscribed (ws_run evs c)).
    { induction evs as [| ev evs IH]; intros c Hc; [exact Hc |].
      cbn [ws_run fold_left]. apply IH. apply ws_step_requests_are_subscribed.
      exact Hc. }
    apply H. constructor.
  - intros c ev Hdown. destruct (ws_step_emits c ev) as (extra & He & _ & Hq).
    rewrite He, (Hq Hdown). apply app_nil_r.
Qed.

Lemma requested_app a b : requested (a ++ b) = (requested a ++ requested b)%list.
Proof. unfold requested. apply flat_map_app. Qed.

(** X20. How often one call of [subscribe] asks for its channel. On a
connected socket: once. On a socket that is down and that [connect]
brings up: twice, once by the connect handler, which finds the channel in
the set already, and once by [subscribe] itself. On a socket that stays
down: not at all, the channel is only kept in the set. *)
Theorem subscribe_request_count (up : bool) (ch : string) (c : WallexWSClient) :
  count_occ string_dec (requested (emitted (subscribe up ch c))) ch
  = (count_occ string_dec (requested (emitted c)) ch
     + (if connected c then 1 else if up then 2 else 0))%nat.
Proof.
  rewrite subscribe_emits, requested_app, requested_subscribe_requests.
  rewrite count_occ_app. f_equal.
  destruct (connected c).
  - cbn. destruct (string_dec ch ch); congruence.
  - destruct up; [| reflexivity].
    rewrite count_occ_app, count_occ_elements.
    destruct (decide (ch ∈ {[ch]} ∪ _subscriptions c)) as [_ | Hn]; [| set_solver].
    cbn. destruct (string_dec ch ch); congruence.
Qed.

(** * Properties of the settings *)

Lemma ascii_lower_letter (a c : ascii) :
  Config.ascii_lower a = c ->
  a = c \/ a = ascii_of_nat (nat_of_ascii c - 32).
Proof.
  intros <-. unfold Config.ascii_lower in *.
  destruct ((65 <=? nat_of_ascii a)%nat && (nat_of_ascii a <=? 90)%nat) eqn:Hup.
  - right. apply andb_true_iff in Hup. destruct Hup as [H1 H2].
    apply Nat.leb_le in H1, H2.
    rewrite nat_ascii_embedding by lia.
    replace (nat_of_ascii a + 32 - 32)%nat with (nat_of_ascii a) by lia.
    symmetry. apply ascii_nat_embedding.
  - left. reflexivity.
Qed.

Lemma lower_true_iff (s : string) :
  Config.lower s = "true" <-> Config.spells_true s.
Proof.
  split.
  - intros H.
    destruct s as [| a [| b [| c [| d [| x s]]]]]; try discriminate.
    cbn [Config.lower] in H. injection H as Ha Hb Hc Hd.
    exists a, b, c, d. split; [reflexivity |].
    repeat split.
    + apply (ascii_lower_letter a "t" Ha).
    + apply (ascii_lower_letter b "r" Hb).
    + apply (ascii_lower_letter c "u" Hc).
    + apply (ascii_lower_letter d "e" Hd).
  - intros (a & b & c & d & -> & [-> | ->] & [-> | ->] & [-> | ->] & [-> | ->]);
      reflexivity.
Qed.

Lemma flag_true_iff (environ : gmap string string) (key : string) :
  Config.flag environ key = true <->
  environ !! key = None \/
  exists v, environ !! key = Some v /\ Config.spells_true v.
Proof.
  unfold Config.flag, Config.getenv. rewrite String.eqb_eq.
  destruct (environ !! key) as [v |].
  - rewrite lower_true_iff. split.
    + intros H. right. exists v. split; [reflexivity | exact H].
    + intros [H | (v' & [= <-] & H)]; [discriminate | exact H].
  - split; [intros _; left; reflexivity | intros _; reflexivity].
Qed.

Lemma load_settings_fields fos ios environ s :
  Config.load_settings fos ios environ = Ret s ->
  Config.wallex_api_key s = Config.getenv environ "WALLEX_API_KEY" "" /\
  Config.gemini_api_key s = Config.getenv environ "GEMINI_API_KEY" "" /\
  Config.use_llm s = Config.flag environ "USE_LLM" /\
  Config.enable_pine s = Config.flag environ "ENABLE_PINE" /\
  Config.dry_run s = Config.flag environ "DRY_RUN" /\
  Config.enable_polling s = Config.flag environ "ENABLE_POLLING".
Proof.
  unfold Config.load_settings.
  destruct (Config.parse_float fos _); [| discriminate].
  destruct (Config.parse_int ios (Config.getenv environ "POLLING_INTERVAL_SEC" "5"));
    [| discriminate].
  destruct (Config.parse_int ios (Config.getenv environ "WS_IDLE_TIMEOUT_SEC" "15"));
    [| discriminate].
  intros [= <-]. repeat split.
Qed.

(** X21. A switch of the settings ([DRY_RUN], [USE_LLM], [ENABLE_POLLING],
[ENABLE_PINE]) is on when its variable is not set, and when it is set to
one of the sixteen spellings of ["true"] in capitals and small letters.
Every other value switches it off. *)
Theorem switch_on_iff_spells_true (fos : string -> option float)
    (ios : string -> option Z) (environ : gmap string string)
    (s : Config.Settings) :
  Config.load_settings fos ios environ = Ret s ->
  let on key :=
    environ !! key = None \/
    exists v, environ !! key = Some v /\ Config.spells_true v in
  (Config.dry_run s = true <-> on "DRY_RUN") /\
  (Config.use_llm s = true <-> on "USE_LLM") /\
  (Config.enable_polling s = true <-> on "ENABLE_POLLING") /\
  (Config.enable_pine s = true <-> on "ENABLE_PINE").
Proof.
  intros H on. destruct (load_settings_fields _ _ _ _ H)
    as (_ & _ & -> & -> & -> & ->).
  repeat split; apply flag_true_iff.
Qed.

(** X22. The defaults of [load_settings] are those of the dataclass: in an
environment that sets none of the thirteen variables, [load_settings]
returns the [Settings()] of the defaults. And [load_settings] fails only
on a numeral: it raises exactly when the amount is not read by [float] or
one of the two durations is not read by [int], and then with a
[ValueError]. *)
Theorem load_settings_defaults (fos : string -> option float)
    (ios : string -> option Z) (environ : gmap string string) :
  (fos "10" = Some 10%float -> ios "5" = Some 5 -> ios "15" = Some 15 ->
   (forall key,
       In key ["WALLEX_API_KEY"; "WALLEX_BASE_URL"; "TRADE_SYMBOL"; "USE_LLM";
               "ENABLE_PINE"; "GEMINI_API_KEY"; "GEMINI_MODEL";
               "TRADE_AMOUNT_USDT"; "LOG_LEVEL"; "DRY_RUN"; "ENABLE_POLLING";
               "POLLING_INTERVAL_SEC"; "WS_IDLE_TIMEOUT_SEC"] ->
       environ !! key = None) ->
   Config.load_settings fos ios environ = Ret Config.defaults) /\
  ((exists ex, Config.load_settings fos ios environ = Raise ex) <->
   fos (Config.getenv environ "TRADE_AMOUNT_USDT" "10") = None \/
   ios (Config.getenv environ "POLLING_INTERVAL_SEC" "5") = None \/
   ios (Config.getenv environ "WS_IDLE_TIMEOUT_SEC" "15") = None) /\
  (forall ex, Config.load_settings fos ios environ = Raise ex -> ex = ValueError).
Proof.
  split; [| split].
  - intros Hf H5 H15 Hunset.
    unfold Config.load_settings, Config.flag, Config.getenv.
    rewrite !Hunset by (cbn; tauto).
    unfold Config.parse_float, Config.parse_int. rewrite Hf, H5, H15.
    reflexivity.
  - unfold Config.load_settings, Config.parse_float, Config.parse_int.
    destruct (fos _) as [f |].
    + destruct (ios (Config.getenv environ "POLLING_INTERVAL_SEC" "5")) as [i |].
      * destruct (ios (Config.getenv environ "WS_IDLE_TIMEOUT_SEC" "15")) as [t |].
        -- split; [intros (ex & [=]) | intros [[=] | [[=] | [=]]]].
        -- split; [intros _; right; right; reflexivity |
                   intros _; exists ValueError; reflexivity].
      * split; [intros _; right; left; reflexivity |
                intros _; exists ValueError; reflexivity].
    + split; [intros _; left; reflexivity |
              intros _; exists ValueError; reflexivity].
  - intros ex. unfold Config.load_settings, Config.parse_float, Config.parse_int.
    destruct (fos _); [| intros [= <-]; reflexivity].
    destruct (ios (Config.getenv environ "POLLING_INTERVAL_SEC" "5"));
      [| intros [= <-]; reflexivity].
    destruct (ios (Config.getenv environ "WS_IDLE_TIMEOUT_SEC" "15"));
      [discriminate | intros [= <-]; reflexivity].
Qed.

(** X23. From the environment to the exchange. With the settings that
[load_settings] read, a call of [handle_trade] in a run of the two
transports sends an order only if [DRY_RUN] is set, to a value that is not
a spelling of ["true"], and [WALLEX_API_KEY] and [GEMINI_API_KEY] are set
and not empty, and [USE_LLM] is not switched off. *)
Theorem submission_needs_environment (host : Host)
    (fos : string -> option float) (ios : string -> option Z)
    (environ : gmap string string) (s : Config.Settings)
    (fs : list feed) (st : pipeline) (c : call) :
  Config.load_settings fos ios environ = Ret s ->
  settings host = pipeline_settings s ->
  In c (snd (run host fs st)) ->
  submitted (c_report c) = true ->
  (exists v, environ !! "DRY_RUN" = Some v /\ ~ Config.spells_true v) /\
  (exists k, environ !! "WALLEX_API_KEY" = Some k /\ k <> "") /\
  (exists k, environ !! "GEMINI_API_KEY" = Some k /\ k <> "") /\
  Config.flag environ "USE_LLM" = true.
Proof.
  intros Hload Hs Hin Hsub.
  destruct (run_calls host fs st c Hin) as (st' & Hc). rewrite Hc in Hsub.
  apply handle_trade_submitted in Hsub. destruct Hsub as (Hdry & Hkey & Hllm).
  unfold llm in Hllm. rewrite Hs in Hdry, Hkey, Hllm.
  cbn [dry_run wallex_api_key use_llm gemini_api_key pipeline_settings] in *.
  destruct (load_settings_fields _ _ _ _ Hload) as (Hw & Hg & Hu & _ & Hd & _).
  rewrite Hw in Hkey. rewrite Hd in Hdry. rewrite Hg, Hu in Hllm.
  apply andb_true_iff in Hllm. destruct Hllm as [Huse Hgem].
  apply negb_true_iff, String.eqb_neq in Hgem.
  repeat split.
  - destruct (environ !! "DRY_RUN") as [v |] eqn:Ev.
    + exists v. split; [reflexivity |]. intros Hsp.
      assert (Hon : Config.flag environ "DRY_RUN" = true).
      { apply flag_true_iff. right. exists v. split; assumption. }
      congruence.
    + assert (Hon : Config.flag environ "DRY_RUN" = true).
      { apply flag_true_iff. left. exact Ev. }
      congruence.
  - unfold Config.getenv in Hkey.
    destruct (environ !! "WALLEX_API_KEY") as [k |]; [| congruence].
    exists k. split; [reflexivity | exact Hkey].
  - unfold Config.getenv in Hgem.
    destruct (environ !! "GEMINI_API_KEY") as [k |]; [| congruence].
    exists k. split; [reflexivity | exact Hgem].
  - exact Huse.
Qed.

(** X24. From the environment to the poll loop. With [ENABLE_POLLING] set
to a value that is not a spelling of ["true"], every turn of the loop
sleeps one second and does nothing else: no fetch, no call of
[handle_trade], the shared state as it was. With the variable not set, or
set to a spelling of ["true"], a turn during which the push transport is
not connected fetches the trades. *)
Theorem polling_follows_environment (host : Host)
    (fos : string -> option float) (ios : string -> option Z)
    (environ : gmap string string) (s : Config.Settings) :
  Config.load_settings fos ios environ = Ret s ->
  ((exists v, environ !! "ENABLE_POLLING" = Some v /\ ~ Config.spells_true v) ->
   forall limit ws_connected now get_trades envs st,
     polling_turn host (poll_settings_of s) limit ws_connected now get_trades envs st
     = mkTurn st [] false (Ret 1)) /\
  (environ !! "ENABLE_POLLING" = None \/
   (exists v, environ !! "ENABLE_POLLING" = Some v /\ Config.spells_true v) ->
   forall limit now get_trades envs st,
     tn_fetched
       (polling_turn host (poll_settings_of s) limit false now get_trades envs st)
     = true).
Proof.
  intros Hload.
  destruct (load_settings_fields _ _ _ _ Hload) as (_ & _ & _ & _ & _ & Hp).
  split.
  - intros (v & Hv & Hns) limit ws_connected now get_trades envs st.
    assert (Hoff : Config.enable_polling s = false).
    { rewrite Hp. destruct (Config.flag environ "ENABLE_POLLING") eqn:E;
        [| reflexivity].
      apply flag_true_iff in E. destruct E as [E | (v' & E & Hsp)]; [congruence |].
      rewrite Hv in E. injection E as <-. contradiction. }
    unfold polling_turn. cbn [enable_polling poll_settings_of]. rewrite Hoff.
    cbn [negb]. rewrite time_sleep_one. reflexivity.
  - intros Hon limit now get_trades envs st.
    assert (Hen : Config.enable_polling s = true).
    { rewrite Hp. apply flag_true_iff. exact Hon. }
    unfold polling_turn, should_poll. cbn [enable_polling poll_settings_of].
    rewrite Hen. cbn [negb orb].
    destruct get_trades as [resp | ex]; [| reflexivity].
    destruct (poll_pass host envs resp st). reflexivity.
Qed.

(** * Properties of the normalizers of the dashboard *)

Section NormalizerFacts.
Variable host : Host.

Lemma to_float_price (d : list (string * pyval)) :
  _to_float host (price_val d) 0%float = extract_price host d.
Proof. unfold _to_float, extract_price. destruct (price_val d); reflexivity. Qed.

Lemma trade_row_returns (t : pyval) (row : list pyval) :
  trade_row host t = Ret row ->
  row = match t with
        | PDict d =>
            [PDict [("ts", PInt (_extract_ts host t));
                    ("price", PFloat (extract_price host d));
                    ("qty", PFloat (_to_float host (qty_val d) 0%float));
                    ("raw", t)]]
        | PList (a :: b :: _) =>
            [PDict [("ts", PInt 0);
                    ("price", PFloat (_to_float host a 0%float));
                    ("qty", PFloat (_to_float host b 0%float));
                    ("raw", t)]]
        | _ => []
        end.
Proof.
  destruct t as [| | | | | l | d]; cbn [trade_row]; try (intros [= <-]; reflexivity).
  - destruct l as [| a [| b l]]; intros [= <-]; reflexivity.
  - unfold _extract_ts. cbn [py_get mbind result_bind bind].
    destruct (py_int host _) as [ts | ex]; cbn [mbind result_bind bind mret result_ret];
      [| discriminate].
    intros [= <-]. rewrite to_float_price. reflexivity.
Qed.

Lemma trade_row_raises (t : pyval) (ex : exn) :
  trade_row host t = Raise ex ->
  exists d, t = PDict d /\
    py_int host
      (py_or (py_or (py_or (dict_get "ts" d) (dict_get "T" d)) (dict_get "t" d))
         (PInt 0)) = Raise ex /\
    _extract_ts host t = 0.
Proof.
  destruct t as [| | | | | l | d]; cbn [trade_row]; try discriminate.
  - destruct l as [| a [| b l]]; discriminate.
  - unfold _extract_ts. cbn [py_get mbind result_bind bind].
    destruct (py_int host _) as [ts | ex'] eqn:Hint;
      cbn [mbind result_bind bind mret result_ret]; [discriminate |].
    intros [= <-]. exists d. repeat split. exact Hint.
Qed.

(** X25. The rows of the dashboard against the readings of the pipeline.
When [normalize_trades] returns, it looked for the trades where the poll
loop looks for its candidates, and the row of each dict record holds the
timestamp that [_extract_ts] reads and the price that [handle_trade]
reads; a list of two items or more gives a row without a timestamp, any
other record no row. But the timestamp is read without a [try] here: where
[int] raises on a record, which the pipeline takes as a record without a
timestamp, the whole call raises; it raises in no other case. *)
Theorem normalize_trades_agrees (raw : pyval) :
  (forall rows,
      normalize_trades host raw = Ret rows ->
      rows =
      flat_map (fun t =>
        match t with
        | PDict d =>
            [PDict [("ts", PInt (_extract_ts host t));
                    ("price", PFloat (extract_price host d));
                    ("qty", PFloat (_to_float host (qty_val d) 0%float));
                    ("raw", t)]]
        | PList (a :: b :: _) =>
            [PDict [("ts", PInt 0);
                    ("price", PFloat (_to_float host a 0%float));
                    ("qty", PFloat (_to_float host b 0%float));
                    ("raw", t)]]
        | _ => []
        end) (candidates_of raw)) /\
  ((exists ex, normalize_trades host raw = Raise ex) <->
   exists d ex,
     In (PDict d) (candidates_of raw) /\
     py_int host
       (py_or (py_or (py_or (dict_get "ts" d) (dict_get "T" d)) (dict_get "t" d))
          (PInt 0)) = Raise ex /\
     _extract_ts host (PDict d) = 0).
Proof.
  unfold normalize_trades. generalize (candidates_of raw) as trades.
  intros trades. split.
  - induction trades as [| t trades IH]; intros rows; cbn [trade_rows flat_map].
    + intros [= <-]. reflexivity.
    + destruct (trade_row host t) as [row | ex] eqn:Hrow;
        cbn [mbind result_bind bind mret result_ret]; [| discriminate].
      destruct (trade_rows host trades) as [rest | ex];
        cbn [mbind result_bind bind mret result_ret]; [| discriminate].
      intros [= <-]. rewrite (IH rest eq_refl).
      rewrite (trade_row_returns t row Hrow). reflexivity.
  - induction trades as [| t trades IH]; cbn [trade_rows].
    + split; [intros (ex & [=]) | intros (d & ex & [] & _)].
    + destruct (trade_row host t) as [row | ex] eqn:Hrow;
        cbn [mbind result_bind bind mret result_ret].
      * destruct (trade_rows host trades) as [rest | ex];
          cbn [mbind result_bind bind mret result_ret].
        -- split; [intros (ex & [=]) |].
           intros (d & ex & [-> | Hin] & Hint & Hz).
           ++ unfold trade_row in Hrow. rewrite Hint in Hrow. discriminate.
           ++ destruct (proj2 IH) as (ex' & [=]). exists d, ex. auto.
        -- split; [| intros _; exists ex; reflexivity].
           intros _. destruct (proj1 IH) as (d & ex' & Hin & Hint & Hz);
             [exists ex; reflexivity |].
           exists d, ex'. split; [right; exact Hin | split; assumption].
      * split; [| intros _; exists ex; reflexivity].
        intros _. destruct (trade_row_raises t ex Hrow) as (d & -> & Hint & Hz).
        exists d, ex. split; [left; reflexivity | split; assumption].
Qed.

Lemma py_take_length {A} (limit : Z) (l : list A) :
  0 <= limit -> Z.of_nat (length (py_take limit l)) <= limit.
Proof.
  intros H. unfold py_take. destruct (0 <=? limit) eqn:E; [| lia].
  rewrite length_firstn. lia.
Qed.

Lemma py_take_Forall {A} (P : A -> Prop) (limit : Z) (l : list A) :
  Forall P l -> Forall P (py_take limit l).
Proof.
  intros H. unfold py_take. destruct (0 <=? limit); apply Forall_take; exact H.
Qed.

Lemma depth_rows_shape (entries : list pyval) :
  Forall (fun e => exists p q, e = PDict [("price", PFloat p); ("qty", PFloat q)])
    (flat_map (depth_row host) entries).
Proof.
  induction entries as [| e entries IH]; cbn [flat_map]; [constructor |].
  apply Forall_app. split; [| exact IH].
  destruct e as [| | | | | l | d]; cbn [depth_row]; try constructor.
  - destruct l as [| a [| b l]]; repeat constructor. eauto.
  - eauto.
  - constructor.
Qed.

Lemma norm_returns (limit : Z) (side : pyval) (out : list pyval) :
  _norm host limit side = Ret out ->
  (0 <= limit -> Z.of_nat (length out) <= limit) /\
  Forall (fun e => exists p q, e = PDict [("price", PFloat p); ("qty", PFloat q)]) out.
Proof.
  unfold _norm. destruct (py_iter side) as [entries | ex];
    cbn [mbind result_bind bind mret result_ret]; [| discriminate].
  intros [= <-]. split.
  - apply py_take_length.
  - apply py_take_Forall, depth_rows_shape.
Qed.

(** X26. What [normalize_depth] returns. With a limit that is not negative,
neither side of the book holds more entries than the limit. Every entry is
a dict of a ["price"] and a ["qty"], two floats, whatever the shape of the
record it was read from. A value that is not a dict gives two empty
sides. *)
Theorem normalize_depth_bounded (raw : pyval) (limit : Z)
    (bids asks : list pyval) :
  normalize_depth host raw limit = Ret (bids, asks) ->
  (0 <= limit ->
   Z.of_nat (length bids) <= limit /\ Z.of_nat (length asks) <= limit) /\
  Forall (fun e => exists p q, e = PDict [("price", PFloat p); ("qty", PFloat q)])
    (bids ++ asks) /\
  ((forall d, raw <> PDict d) -> bids = [] /\ asks = []).
Proof.
  unfold normalize_depth. cbv zeta.
  set (bs := match raw with
             | PDict d => py_or (py_or (dict_get "bids" d) (dict_get "Bids" d)) (PList [])
             | _ => PList []
             end).
  set (as_ := match raw with
              | PDict d => py_or (py_or (dict_get "asks" d) (dict_get "Asks" d)) (PList [])
              | _ => PList []
              end).
  destruct (_norm host limit bs) as [b | ex] eqn:Hb;
    cbn [mbind result_bind bind mret result_ret]; [| discriminate].
  destruct (_norm host limit as_) as [a | ex] eqn:Ha;
    cbn [mbind result_bind bind mret result_ret]; [| discriminate].
  intros [= <- <-].
  destruct (norm_returns _ _ _ Hb) as [Hlb Hsb].
  destruct (norm_returns _ _ _ Ha) as [Hla Hsa].
  split; [| split].
  - intros H. split; auto.
  - apply Forall_app. split; assumption.
  - intros Hnd.
    assert (Hempty : _norm host limit (PList []) = Ret []).
    { unfold _norm, py_take. cbn [py_iter mbind result_bind bind mret result_ret flat_map].
      destruct (0 <=? limit); rewrite firstn_nil; reflexivity. }
    destruct raw; try (exfalso; eapply Hnd; reflexivity);
      subst bs as_; rewrite Hempty in Hb, Ha; split; congruence.
Qed.
End NormalizerFacts.

(** * The properties above at sample inputs *)




Lemma no_submission_in_dry_run_witness :
  Forall (fun c => submitted (c_report c) = false)
    (snd (run live_host (pushes 6) (start 0%float))).
Proof.
  apply (no_submission_in_dry_run live_host (pushes 6) (start 0%float)).
  left. reflexivity.
Defined.

Lemma no_trigger_without_client_witness :
  Forall (fun c => fired (c_report c) = false /\ escapes (c_report c) = None)
    (snd (run default_host (pushes 6) (start 0%float))).
Proof.
  apply (no_trigger_without_client default_host (pushes 6) (start 0%float)).
  reflexivity.
Defined.

Lemma decide_order_returns_witness :
  quantity (mkOrderRequest "BTCUSDT" "BUY" "MARKET" 0.0002%float None)
  = _format_quantity (10 / 50000)%float /\
  (quantity (mkOrderRequest "BTCUSDT" "BUY" "MARKET" 0.0002%float None)
   <? 0.000001)%float = false.
Proof.
  destruct (decide_order_returns (mkTradingEngine "BTCUSDT" 10%float) 50000%float
              (mkLLMDecision (PStr "long") (PFloat 0.9%float) (PStr "up") PNone PNone)
              (mkOrderRequest "BTCUSDT" "BUY" "MARKET" 0.0002%float None))
    as (_ & _ & _ & _ & Hq & _ & Hmin & _).
  - vm_compute. reflexivity.
  - split; assumption.
Defined.

Lemma decide_order_negative_quantity_witness :
  _format_quantity (-10 / 50000)%float = 0%float /\
  decide_order (mkTradingEngine "BTCUSDT" (-10)%float) 50000%float
    (mkLLMDecision (PStr "long") (PFloat 0.9%float) (PStr "up") PNone PNone)
  = None.
Proof.
  apply (decide_order_negative_quantity (mkTradingEngine "BTCUSDT" (-10)%float)
           50000%float
           (mkLLMDecision (PStr "long") (PFloat 0.9%float) (PStr "up") PNone PNone)).
  vm_compute. reflexivity.
Defined.

Lemma candidates_text_joins_witness :
  read_text
    (PDict [("candidates",
             PList [PDict [("content",
                            PDict [("parts", PList [PDict [("text", PStr "a")]; PDict []]);
                                   ("role", PStr "model")]);
                           ("finishReason", PStr "STOP")];
                    PDict [("finishReason", PStr "SAFETY")];
                    candidate [PDict [("text", PStr "b")]]]);
            ("modelVersion", PStr "gemini-1.5-flash")])
  = Ret (join (map part_text
                 (concat [[PDict [("text", PStr "a")]; PDict []]; [];
                          [PDict [("text", PStr "b")]]]))).
Proof.
  assert (Pa : plain_part (PDict [("text", PStr "a")])).
  { exists [("text", PStr "a")]. split; [reflexivity |]. right. exists "a". reflexivity. }
  assert (Pb : plain_part (PDict [("text", PStr "b")])).
  { exists [("text", PStr "b")]. split; [reflexivity |]. right. exists "b". reflexivity. }
  assert (Pn : plain_part (PDict [])).
  { exists []. split; [reflexivity |]. left. reflexivity. }
  assert (Hall : Forall2 plain_candidate
            [PDict [("content",
                     PDict [("parts", PList [PDict [("text", PStr "a")]; PDict []]);
                            ("role", PStr "model")]);
                    ("finishReason", PStr "STOP")];
             PDict [("finishReason", PStr "SAFETY")];
             candidate [PDict [("text", PStr "b")]]]
            [[PDict [("text", PStr "a")]; PDict []]; [];
             [PDict [("text", PStr "b")]]]).
  { constructor;
      [split; [reflexivity | constructor; [exact Pa | constructor; [exact Pn | constructor]]] |].
    constructor; [split; [reflexivity | constructor] |].
    constructor;
      [split; [reflexivity | constructor; [exact Pb | constructor]] | constructor]. }
  apply (proj1 (proj2
           (candidates_text_joins
              [("candidates",
                PList [PDict [("content",
                               PDict [("parts", PList [PDict [("text", PStr "a")]; PDict []]);
                                      ("role", PStr "model")]);
                              ("finishReason", PStr "STOP")];
                       PDict [("finishReason", PStr "SAFETY")];
                       candidate [PDict [("text", PStr "b")]]]);
               ("modelVersion", PStr "gemini-1.5-flash")]
              _ _ Hall))).
  reflexivity.
Defined.

Lemma analyze_returns_witness :
  (exists msg,
      HttpJson long_body = HttpError msg /\
      mkLLMDecision (PStr "long") (PFloat 0.9%float) (PStr "up") PNone PNone
      = fallback ("LLM error: " ++ msg)) \/
  (exists data text,
      HttpJson long_body = HttpJson data /\
      read_text data = Ret text /\
      ((text = "" /\
        mkLLMDecision (PStr "long") (PFloat 0.9%float) (PStr "up") PNone PNone
        = fallback "No text in LLM response") \/
       (text <> "" /\
        mkLLMDecision (PStr "long") (PFloat 0.9%float) (PStr "up") PNone PNone
        = fallback "Could not parse LLM output" /\
        (search_braces text = None \/
         exists m, search_braces text = Some m /\
           (Some long_fields = None \/
            exists obj ex, Some long_fields = Some obj /\
                           LLMDecision_kwargs obj = Raise ex))) \/
       (text <> "" /\
        exists m d,
          search_braces text = Some m /\
          Some long_fields = Some (PDict d) /\
          Forall (fun kv => In (fst kv) decision_fields) d /\
          assoc "action" d = Some (PStr "long") /\
          assoc "confidence" d = Some (PFloat 0.9%float) /\
          assoc "reason" d = Some (PStr "up") /\
          PNone = dict_get "stop_loss" d /\
          PNone = dict_get "take_profit" d))).
Proof.
  apply (analyze_returns (fun _ => Some long_fields) (fun _ => HttpJson long_body)
           (mkLLMInput "BTCUSDT" "live" [])
           (mkLLMDecision (PStr "long") (PFloat 0.9%float) (PStr "up") PNone PNone)).
  vm_compute. reflexivity.
Defined.

Lemma search_braces_shape_witness :
  exists i j,
    (i < j)%nat /\
    "{c}" = substring i (j - i + 1) "ab{c}d" /\
    get 0 "{c}" = Some "{"%char /\
    get (j - i) "{c}" = Some "}"%char /\
    get (S (j - i)) "{c}" = None /\
    (forall p, (p < i)%nat -> get p "ab{c}d" <> Some "{"%char) /\
    (forall p, (j < p)%nat -> get p "ab{c}d" <> Some "}"%char).
Proof.
  apply (search_braces_shape "ab{c}d" "{c}"). vm_compute. reflexivity.
Defined.

Lemma switch_on_iff_spells_true_witness :
  Config.dry_run trading_settings = true <->
  trading_environ !! "DRY_RUN" = None \/
  exists v, trading_environ !! "DRY_RUN" = Some v /\ Config.spells_true v.
Proof.
  apply (proj1 (switch_on_iff_spells_true numeral_float numeral_int
                  trading_environ trading_settings eq_refl)).
Defined.

Lemma submission_needs_environment_witness :
  (exists v, trading_environ !! "DRY_RUN" = Some v /\ ~ Config.spells_true v) /\
  (exists k, trading_environ !! "WALLEX_API_KEY" = Some k /\ k <> "") /\
  (exists k, trading_environ !! "GEMINI_API_KEY" = Some k /\ k <> "") /\
  Config.flag trading_environ "USE_LLM" = true.
Proof.
  apply (submission_needs_environment trading_host numeral_float numeral_int
           trading_environ trading_settings
           [Push answering "BTCUSDT@trade" (trade 6 50000%float)] five_trades
           (mkCall answering (trade 6 50000%float)
              (snd (handle_trade trading_host answering (trade 6 50000%float)
                      five_trades)))).
  - vm_compute. reflexivity.
  - reflexivity.
  - left. vm_compute. reflexivity.
  - vm_compute. reflexivity.
Defined.

Lemma normalize_depth_bounded_witness :
  Z.of_nat (length [PDict [("price", PFloat 1%float); ("qty", PFloat 2%float)]]) <= 1 /\
  Z.of_nat (length [PDict [("price", PFloat 5%float); ("qty", PFloat 1%float)]]) <= 1.
Proof.
  apply (proj1 (normalize_depth_bounded default_host sample_book 1
                  [PDict [("price", PFloat 1%float); ("qty", PFloat 2%float)]]
                  [PDict [("price", PFloat 5%float); ("qty", PFloat 1%float)]]
                  eq_refl)).
  lia.
Defined.

Lemma polling_follows_environment_witness :
  polling_turn default_host (poll_settings_of trading_settings) 86400 false 0%float
    (Ret (PList [trade 1 50000%float])) (fun _ => offline) (start 0%float)
  = mkTurn (start 0%float) [] false (Ret 1).
Proof.
  apply (proj1 (polling_follows_environment default_host numeral_float numeral_int
                  trading_environ trading_settings eq_refl)).
  exists "0". split; [reflexivity |].
  intros (a & b & c & d & H & _). discriminate H.
Defined.


Lemma candidates_of_shape_witness :
  candidates_of
    (PDict [("status", PStr "ok"); ("trades", PList [trade 1 50000%float])])
  = [trade 1 50000%float].
Proof.
  apply (proj2 (proj2 (proj2 candidates_of_shape))). reflexivity.
Defined.

Lemma polling_turn_survives_witness :
  exists s,
    tn_slept
      (polling_turn default_host (mkPollSettings true 5 15) 86400 false 0%float
         (Raise (RequestException "offline")) (fun _ => offline) (start 0%float))
    = Ret s /\
    0 <= s <= Z.max 1 (polling_interval_sec (mkPollSettings true 5 15)).
Proof.
  apply (proj1 (polling_turn_survives default_host (mkPollSettings true 5 15) 86400)).
  vm_compute. split; discriminate.
Defined.

Lemma decide_order_nan_quantity_witness :
  decide_order (mkTradingEngine "BTCUSDT" 10%float) nan
    (mkLLMDecision (PStr "long") (PFloat 0.9%float) (PStr "up") PNone PNone)
  = Some (mkOrderRequest "BTCUSDT" "BUY" "MARKET" nan None).
Proof.
  apply (proj1 decide_order_nan_quantity (mkTradingEngine "BTCUSDT" 10%float)
           (mkLLMDecision (PStr "long") (PFloat 0.9%float) (PStr "up") PNone PNone)).
  discriminate.
Defined.

Lemma analyze_raises_iff_witness : local_error TypeError.
Proof.
  apply (proj2 (analyze_raises_iff unparsed (fun _ => HttpJson null_text_body)
                  (mkLLMInput "BTCUSDT" "live" []) TypeError)).
  vm_compute. reflexivity.
Defined.

Lemma normalize_message_cases_witness :
  normalize_message
    [PDict [("channel", PStr "BTCUSDT@trade"); ("data", trade 1 50000%float)]]
  = normalize_message [PStr "BTCUSDT@trade"; trade 1 50000%float].
Proof.
  apply (proj1 (proj2 (proj2 normalize_message_cases))
           [("channel", PStr "BTCUSDT@trade"); ("data", trade 1 50000%float)]
           (trade 1 50000%float)); reflexivity.
Defined.

Lemma on_message_frame_witness :
  _on_message default_host offline
    [PDict [("topic", PStr "BTCUSDT@trade"); ("data", trade 1 50000%float)]]
    (start 0%float)
  = (fst (handle_trade default_host offline (trade 1 50000%float) (start 0%float)),
     mkDelivery
       [mkCall offline (trade 1 50000%float)
          (snd (handle_trade default_host offline (trade 1 50000%float)
                  (start 0%float)))]
       (escapes
          (snd (handle_trade default_host offline (trade 1 50000%float)
                  (start 0%float))))).
Proof.
  exact (proj1 (proj2 (proj2 (proj2 (proj2
           (on_message_frame default_host offline (start 0%float))))))
           [("topic", PStr "BTCUSDT@trade"); ("data", trade 1 50000%float)]
           "BTCUSDT@trade" eq_refl).
Defined.

Lemma emitted_only_subscriptions_witness :
  emitted (ws_step (subscribe false "BTCUSDT@trade" ws_init) (Connect false))
  = emitted (subscribe false "BTCUSDT@trade" ws_init).
Proof.
  apply (proj2 (emitted_only_subscriptions [])). reflexivity.
Defined.

Lemma load_settings_defaults_witness :
  Config.load_settings numeral_float numeral_int
    (<["HOME" := "/root"]> ∅)
  = Ret Config.defaults.
Proof.
  apply (proj1 (load_settings_defaults numeral_float numeral_int
                  (<["HOME" := "/root"]> ∅))); try reflexivity.
  intros key Hkey. cbn in Hkey.
  repeat (destruct Hkey as [<- | Hkey]; [vm_compute; reflexivity |]).
  destruct Hkey.
Defined.

Lemma normalize_trades_agrees_witness :
  exists ex, normalize_trades default_host
               (PList [trade 1 50000%float; PDict [("t", PStr "soon")]])
             = Raise ex.
Proof.
  apply (proj2 (normalize_trades_agrees default_host
                  (PList [trade 1 50000%float; PDict [("t", PStr "soon")]]))).
  exists [("t", PStr "soon")], ValueError.
  split; [right; left; reflexivity | split; reflexivity].
Defined.
